(** * BookPack validator and catalog builder

    A shallow embedding of [scripts/validate-bookpack.py] and
    [scripts/build_catalog.py].

    - Python values decoded by [json.load] are the inductive [json];
      Python's [None] is [JNull].
    - The file system is a function from path strings to what is found
      there; a regular file holds what [json.load] makes of it.
    - A method of [BookPackValidator] is a computation over [world]
      (the file system and the fields of [self]) that either returns a
      value and a new world or raises an exception.
    - [print] is not modelled: the transcript is output only.  The
      arguments of [self.ok] that can raise are still evaluated. *)

From Stdlib Require Import Bool Arith ZArith Lia List String Ascii.
From Stdlib Require Import DecimalString PrimFloat SpecFloat FloatOps.
From Stdlib Require Import Sorted Permutation.
Import ListNotations.

Local Open Scope list_scope.
Local Open Scope string_scope.

(** ** Python values *)

#[local] Set Warnings "-register-all".

(** What [json.load] returns: [None], [bool], [int], [float], [str],
    [list] and [dict].  A dict is the list of its items in insertion
    order; a decoded dict has pairwise distinct keys, and the operations
    below read a list with a repeated key as the dict of its first
    bindings. *)
Inductive json : Type :=
| JNull
| JBool (b : bool)
| JInt (z : Z)
| JFloat (f : float)
| JStr (s : string)
| JArr (l : list json)
| JObj (d : list (string * json)).

Definition dict : Type := list (string * json).

(** Exceptions the two scripts can raise and never catch, and
    [SystemExit] from [sys.exit].  [DecodeError] stands for
    [json.JSONDecodeError] and [UnicodeDecodeError]. *)
Inductive exn : Type :=
| TypeError
| AttributeError
| KeyError (k : string)
| IndexError
| OSError
| DecodeError (e : string)
| SystemExit (code : Z).

Inductive result (A : Type) : Type :=
| Ok (a : A)
| Raise (e : exn).
Arguments Ok {A} a.
Arguments Raise {A} e.

(** *** Dicts *)

Fixpoint dict_get (k : string) (d : dict) : option json :=
  match d with
  | [] => None
  | (k', v) :: d' => if String.eqb k k' then Some v else dict_get k d'
  end.

(** [d.get(k, default)]. *)
Definition dict_get_or (d : dict) (k : string) (default : json) : json :=
  match dict_get k d with
  | Some v => v
  | None => default
  end.

Definition dict_mem (k : string) (d : dict) : bool :=
  match dict_get k d with Some _ => true | None => false end.

Fixpoint dict_keys (d : dict) : list string :=
  match d with
  | [] => []
  | (k, _) :: d' => k :: filter (fun k' => negb (String.eqb k k')) (dict_keys d')
  end.

(** [len(d)]: the number of keys. *)
Definition dict_len (d : dict) : nat := List.length (dict_keys d).

(** *** Truth value, [bool(v)] *)

Definition truthy (v : json) : bool :=
  match v with
  | JNull => false
  | JBool b => b
  | JInt z => negb (Z.eqb z 0)
  | JFloat f => negb (PrimFloat.eqb f PrimFloat.zero)
  | JStr s => negb (String.eqb s "")
  | JArr l => match l with [] => false | _ => true end
  | JObj d => match d with [] => false | _ => true end
  end.

(** *** Equality with an [int] and with a [str] *)

(** [f == n] for a float and an int compares the exact values. *)
Definition float_eq_int (f : float) (n : Z) : bool :=
  match Prim2SF f with
  | S754_zero _ => Z.eqb n 0
  | S754_infinity _ => false
  | S754_nan => false
  | S754_finite s m e =>
      let v := if s then Z.neg m else Z.pos m in
      if Z.leb 0 e then Z.eqb (v * 2 ^ e) n else Z.eqb v (n * 2 ^ (- e))
  end.

(** [v == n] where [n] is an [int]: [True == 1] and [2.0 == 2] hold. *)
Definition eq_int (v : json) (n : Z) : bool :=
  match v with
  | JInt z => Z.eqb z n
  | JBool b => Z.eqb (if b then 1 else 0) n
  | JFloat f => float_eq_int f n
  | _ => false
  end.

(** [v == s] where [s] is a [str]. *)
Definition eq_str (v : json) (s : string) : bool :=
  match v with
  | JStr s' => String.eqb s' s
  | _ => false
  end.

(** *** Membership, [.get], subscription, [len], iteration *)

Fixpoint is_substring (needle s : string) : bool :=
  String.prefix needle s
  || match s with
     | EmptyString => false
     | String _ s' => is_substring needle s'
     end.

(** [k in c] for a [str] k: keys of a dict, elements of a list,
    substrings of a str; the other values are not containers. *)
Definition str_in (k : string) (c : json) : result bool :=
  match c with
  | JObj d => Ok (dict_mem k d)
  | JArr l => Ok (existsb (fun x => eq_str x k) l)
  | JStr s => Ok (is_substring k s)
  | _ => Raise TypeError
  end.

(** [x in d] for a dict with [str] keys: a list or a dict is unhashable,
    any other value that is not a str is simply no key. *)
Definition in_dict (x : json) (d : dict) : result bool :=
  match x with
  | JStr s => Ok (dict_mem s d)
  | JArr _ | JObj _ => Raise TypeError
  | _ => Ok false
  end.

(** [v.get(k, default)]: only a dict has the method. *)
Definition py_get (v : json) (k : string) (default : json) : result json :=
  match v with
  | JObj d => Ok (dict_get_or d k default)
  | _ => Raise AttributeError
  end.

(** [v[k]] for a [str] k. *)
Definition py_getitem (v : json) (k : string) : result json :=
  match v with
  | JObj d => match dict_get k d with Some x => Ok x | None => Raise (KeyError k) end
  | _ => Raise TypeError
  end.

(** [len(v)]; a str is counted in the bytes of its UTF-8 text here, which
    agrees with Python on whether the length is zero. *)
Definition py_len (v : json) : result nat :=
  match v with
  | JArr l => Ok (List.length l)
  | JObj d => Ok (dict_len d)
  | JStr s => Ok (String.length s)
  | _ => Raise TypeError
  end.

Fixpoint chars_of (s : string) : list json :=
  match s with
  | EmptyString => []
  | String c s' => JStr (String c EmptyString) :: chars_of s'
  end.

(** [for x in v]: the elements of a list, the keys of a dict, the
    characters of a str (all of them strs). *)
Definition py_iter (v : json) : result (list json) :=
  match v with
  | JArr l => Ok l
  | JObj d => Ok (map JStr (dict_keys d))
  | JStr s => Ok (chars_of s)
  | _ => Raise TypeError
  end.

(** [[k for k in required if k not in meta]]. *)
Fixpoint missing_fields (required : list string) (meta : json) : result (list string) :=
  match required with
  | [] => Ok []
  | k :: required' =>
      match str_in k meta with
      | Ok b =>
          match missing_fields required' meta with
          | Ok rest => Ok (if negb b then k :: rest else rest)
          | Raise e => Raise e
          end
      | Raise e => Raise e
      end
  end.

(** [l[-1]] for a list. *)
Definition py_last (l : list json) : result json :=
  match l with
  | [] => Raise IndexError
  | x :: l' => Ok (last l' x)
  end.

(** [sep.join(l)]: every item has to be a str. *)
Fixpoint strs_of (l : list json) : result (list string) :=
  match l with
  | [] => Ok []
  | JStr s :: l' =>
      match strs_of l' with
      | Ok ss => Ok (s :: ss)
      | Raise e => Raise e
      end
  | _ :: _ => Raise TypeError
  end.

Definition py_join (sep : string) (l : list json) : result string :=
  match strs_of l with
  | Ok ss => Ok (String.concat sep ss)
  | Raise e => Raise e
  end.

(** *** [str] and [repr] *)

Definition str_of_nat (n : nat) : string := NilZero.string_of_uint (Nat.to_uint n).
Definition str_of_Z (z : Z) : string := NilZero.string_of_int (Z.to_int z).

Definition squote : ascii := ascii_of_nat 39.
Definition dquote : ascii := ascii_of_nat 34.
Definition backslash : ascii := ascii_of_nat 92.

Fixpoint has_char (c : ascii) (s : string) : bool :=
  match s with
  | EmptyString => false
  | String c' s' => Ascii.eqb c c' || has_char c s'
  end.

Definition hex_digit (n : nat) : ascii :=
  match String.get n "0123456789abcdef" with
  | Some c => c
  | None => "0"%char
  end.

(** One character of [repr(s)] inside the quote [q].  Bytes from 128 on
    belong to the UTF-8 text of a non-ASCII character and are kept: the
    model takes such characters to be printable. *)
Definition repr_char (q c : ascii) : string :=
  let n := nat_of_ascii c in
  if Ascii.eqb c q || Ascii.eqb c backslash then String backslash (String c EmptyString)
  else if Nat.eqb n 9 then String backslash "t"
  else if Nat.eqb n 10 then String backslash "n"
  else if Nat.eqb n 13 then String backslash "r"
  else if Nat.ltb n 32 || Nat.eqb n 127 then
    String backslash (String "x" (String (hex_digit (n / 16)) (String (hex_digit (n mod 16)) EmptyString)))
  else String c EmptyString.

Fixpoint repr_chars (q : ascii) (s : string) : string :=
  match s with
  | EmptyString => EmptyString
  | String c s' => repr_char q c ++ repr_chars q s'
  end.

(** [repr(s)] for a str: single quotes unless the text has a single
    quote and no double quote. *)
Definition repr_str (s : string) : string :=
  let q := if has_char squote s && negb (has_char dquote s) then dquote else squote in
  String q (repr_chars q s ++ String q EmptyString).

(** The items of a dict whose values are already rendered: first
    bindings only. *)
Fixpoint first_bindings (d : list (string * string)) : list (string * string) :=
  match d with
  | [] => []
  | (k, v) :: d' => (k, v) :: filter (fun p => negb (String.eqb k (fst p))) (first_bindings d')
  end.

(** ** The file system *)

(** What [json.load] makes of a regular file: a value, or one of the two
    decode errors with its text [str(e)]. *)
Inductive file_content : Type :=
| Decoded (v : json)
| Undecodable (e : string).

Inductive node : Type :=
| Directory (names : list string)
| RegularFile (c : file_content).

(** A path string to what it resolves to, if anything. *)
Definition filesystem : Type := string -> option node.

Definition fs_isfile (fs : filesystem) (p : string) : bool :=
  match fs p with
  | Some (RegularFile _) => true
  | _ => false
  end.

Definition fs_isdir (fs : filesystem) (p : string) : bool :=
  match fs p with
  | Some (Directory _) => true
  | _ => false
  end.

(** [open(p)] followed by [json.load]. *)
Definition fs_load (fs : filesystem) (p : string) : result json :=
  match fs p with
  | Some (RegularFile (Decoded v)) => Ok v
  | Some (RegularFile (Undecodable e)) => Raise (DecodeError e)
  | _ => Raise OSError
  end.

(** [os.listdir(p)]. *)
Definition fs_listdir (fs : filesystem) (p : string) : result (list string) :=
  match fs p with
  | Some (Directory names) => Ok names
  | _ => Raise OSError
  end.

(** [os.path.join(a, b)] of posixpath, for two strs. *)
Definition starts_with_sep (s : string) : bool :=
  match s with
  | String c _ => Ascii.eqb c "/"
  | EmptyString => false
  end.

Fixpoint ends_with_sep (s : string) : bool :=
  match s with
  | EmptyString => false
  | String c EmptyString => Ascii.eqb c "/"
  | String _ s' => ends_with_sep s'
  end.

Definition path_join (a b : string) : string :=
  if starts_with_sep b then b
  else if String.eqb a "" || ends_with_sep a then a ++ b
  else a ++ "/" ++ b.

(** [os.path.join(a, b)] where [b] is any value: only a str will do. *)
Definition os_path_join (a : string) (b : json) : result string :=
  match b with
  | JStr s => Ok (path_join a s)
  | _ => Raise TypeError
  end.

Definition nonempty {A} (l : list A) : bool :=
  match l with
  | [] => false
  | _ :: _ => true
  end.

(** The value of an optional list or dict, and its truth value: [None]
    and the empty list or dict are false. *)
Definition the {A} (o : option (list A)) : list A :=
  match o with
  | Some l => l
  | None => []
  end.

Definition available {A} (o : option (list A)) : bool := nonempty (the o).

(** ** build_catalog.py *)

Definition rbind {A B} (r : result A) (k : A -> result B) : result B :=
  match r with
  | Ok a => k a
  | Raise e => Raise e
  end.

Notation "'let?' x ':=' r 'in' k" := (rbind r (fun x => k))
  (at level 10, x name, r at level 100, k at level 200).

(** [sorted(names)]: strs are ordered by code point, which on UTF-8 text
    is the order of the bytes. *)
Fixpoint insert_sorted (x : string) (l : list string) : list string :=
  match l with
  | [] => [x]
  | y :: l' => if String.leb x y then x :: y :: l' else y :: insert_sorted x l'
  end.

Fixpoint sorted (l : list string) : list string :=
  match l with
  | [] => []
  | x :: l' => insert_sorted x (sorted l')
  end.

(** Read book.json from a BookPack directory and return catalog entry.
    The notices on stderr are not modelled. *)
Definition load_book_meta (fs : filesystem) (book_dir : string) : result (option dict) :=
  let book_json_path := path_join book_dir "book.json" in
  if negb (fs_isfile fs book_json_path) then Ok None
  else
    let? meta := fs_load fs book_json_path in
    (* Validate required fields *)
    let? missing := missing_fields ["id"; "title"; "author"] meta in
    if nonempty missing then Ok None
    else
      let? id := py_getitem meta "id" in
      let? title := py_getitem meta "title" in
      let? author := py_getitem meta "author" in
      let? cover := py_get meta "coverImage" JNull in
      let? chapter_count := py_get meta "chapterCount" (JInt 0) in
      let? character_count := py_get meta "characterCount" (JInt 0) in
      Ok (Some [("id", id); ("title", title); ("author", author);
                ("coverImage", cover); ("chapterCount", chapter_count);
                ("characterCount", character_count)]).

(** The loop of [build_catalog] over the sorted directory entries. *)
Fixpoint scan_books (fs : filesystem) (books_dir : string) (entries : list string)
    (books : list json) : result (list json) :=
  match entries with
  | [] => Ok books
  | entry :: entries' =>
      let book_path := path_join books_dir entry in
      if negb (fs_isdir fs book_path) then scan_books fs books_dir entries' books
      else
        let? meta := load_book_meta fs book_path in
        if available meta then scan_books fs books_dir entries' (books ++ [JObj (the meta)])%list
        else scan_books fs books_dir entries' books
  end.

(** Scan books_dir for BookPack folders and assemble catalog. *)
Definition build_catalog (fs : filesystem) (books_dir : string) : result json :=
  if negb (fs_isdir fs books_dir) then Raise (SystemExit 1)
  else
    let? names := fs_listdir fs books_dir in
    let? books := scan_books fs books_dir (sorted names) [] in
    Ok (JObj [("books", JArr books)]).

(** ** The validator object and its methods *)

(** The file system together with the fields of [self].  [book_dir] is
    what [os.path.abspath] made of the argument; [book_id] is only
    printed and is left out. *)
Record world : Type := mkWorld {
  disk : filesystem;
  book_dir : string;
  strict : bool;
  errors : list string;
  warnings : list string
}.

(** [BookPackValidator(book_dir, strict)] facing the file system [fs]. *)
Definition new_validator (fs : filesystem) (dir : string) (st : bool) : world :=
  mkWorld fs dir st [] [].

(** A method: from a world to a value and a world, or an exception. *)
Definition M (A : Type) : Type := world -> result (A * world).

Definition ret {A} (a : A) : M A := fun w => Ok (a, w).

Definition bind {A B} (m : M A) (k : A -> M B) : M B :=
  fun w =>
    match m w with
    | Ok (a, w') => k a w'
    | Raise e => Raise e
    end.

Definition lift {A} (r : result A) : M A :=
  fun w =>
    match r with
    | Ok a => Ok (a, w)
    | Raise e => Raise e
    end.

Declare Scope py_scope.
Delimit Scope py_scope with py.
Notation "x <- m ;; k" := (bind m (fun x => k))
  (at level 61, m at next level, right associativity) : py_scope.
Notation "m ;; k" := (bind m (fun _ => k))
  (at level 61, right associativity) : py_scope.
Local Open Scope py_scope.

(** [for x in l: body(x)]. *)
Fixpoint for_each {A} (l : list A) (body : A -> M unit) : M unit :=
  match l with
  | [] => ret tt
  | x :: l' => body x ;; for_each l' body
  end.

(** [for x in l: acc = body(acc, x)], for a loop that builds up local
    lists. *)
Fixpoint for_fold {A S} (l : list A) (body : S -> A -> M S) (acc : S) : M S :=
  match l with
  | [] => ret acc
  | x :: l' => acc' <- body acc x ;; for_fold l' body acc'
  end.

(** [enumerate(l)]. *)
Fixpoint enumerate_from {A} (i : nat) (l : list A) : list (nat * A) :=
  match l with
  | [] => []
  | x :: l' => (i, x) :: enumerate_from (S i) l'
  end.

Definition enumerate {A} (l : list A) : list (nat * A) := enumerate_from 0 l.

(** Reading [self] and the file system. *)
Definition get_book_dir : M string := fun w => Ok (book_dir w, w).
Definition isfile (p : string) : M bool := fun w => Ok (fs_isfile (disk w) p, w).
Definition isdir (p : string) : M bool := fun w => Ok (fs_isdir (disk w) p, w).
Definition json_load (p : string) : M json := fun w => lift (fs_load (disk w) p) w.

(** [try: m except (json.JSONDecodeError, UnicodeDecodeError) as e: h(e)].
    The bodies so guarded only read, so the handler starts from the world
    the [try] was entered in. *)
Definition try_decode {A} (m : M A) (h : string -> M A) : M A :=
  fun w =>
    match m w with
    | Raise (DecodeError e) => h e w
    | r => r
    end.

(** [self.errors.append(msg)]. *)
Definition add_error (msg : string) (w : world) : world :=
  mkWorld (disk w) (book_dir w) (strict w) (errors w ++ [msg])%list (warnings w).

(** [self.warnings.append(msg)], and [self.errors.append(msg)] when
    strict. *)
Definition add_warning (msg : string) (w : world) : world :=
  mkWorld (disk w) (book_dir w) (strict w)
    (if strict w then (errors w ++ [msg])%list else errors w)
    (warnings w ++ [msg])%list.

Definition error (msg : string) : M unit := fun w => Ok (tt, add_error msg w).

Definition warn (msg : string) : M unit := fun w => Ok (tt, add_warning msg w).

(** [self.ok(msg)] only prints. *)
Definition ok : M unit := ret tt.

(** The em dash of the message of [load_json], in UTF-8. *)
Definition em_dash : string :=
  String (ascii_of_nat 226) (String (ascii_of_nat 128) (String (ascii_of_nat 148) EmptyString)).

Definition load_json (rel_path : string) : M json :=
  dir <- get_book_dir ;;
  let full := path_join dir rel_path in
  f <- isfile full ;;
  if negb f then ret JNull
  else
    try_decode (json_load full)
      (fun e => error (rel_path ++ ": invalid JSON " ++ em_dash ++ " " ++ e) ;; ret JNull).


Section Validator.

(** [repr] of a float (the shortest decimal text that reads back as the
    same float) belongs to the Python runtime. *)
Variable float_repr : float -> string.

Fixpoint py_repr (v : json) : string :=
  match v with
  | JNull => "None"
  | JBool true => "True"
  | JBool false => "False"
  | JInt z => str_of_Z z
  | JFloat f => float_repr f
  | JStr s => repr_str s
  | JArr l => "[" ++ String.concat ", " (map py_repr l) ++ "]"
  | JObj d =>
      "{"
      ++ String.concat ", "
           (map (fun p => repr_str (fst p) ++ ": " ++ snd p)
              (first_bindings (map (fun p => (fst p, py_repr (snd p))) d)))
      ++ "}"
  end.

(** [str(v)], what an f-string puts for [{v}]. *)
Definition py_str (v : json) : string :=
  match v with
  | JStr s => s
  | _ => py_repr v
  end.

(** [", ".join(f"ch{ch}:{f}" for ch, f in missing[:5])]. *)
Definition show_missing (missing : list (json * json)) : string :=
  String.concat ", "
    (map (fun p => "ch" ++ py_str (fst p) ++ ":" ++ py_str (snd p)) (firstn 5 missing)).

Definition ellipsis_after (n : nat) {A} (l : list A) : string :=
  if Nat.ltb n (List.length l) then "..." else "".

Definition required_fields : list string := ["id"; "title"; "author"; "schemaVersion"].

Definition _check_book_json : M (option dict) :=
  meta <- load_json "book.json" ;;
  match meta with
  | JNull =>
      error "book.json is missing or invalid" ;;
      ret None
  | _ =>
      missing <- lift (missing_fields required_fields meta) ;;
      if nonempty missing then
        error ("book.json missing required fields: " ++ py_repr (JArr (map JStr missing))) ;;
        ret None
      else
        version <- lift (py_get meta "schemaVersion" JNull) ;;
        (if negb (eq_str version "1.0") then
           error ("book.json schemaVersion is '" ++ py_str version ++ "', expected '1.0'")
         else ret tt) ;;
        (* Check cover image if referenced *)
        cover <- lift (py_get meta "coverImage" JNull) ;;
        (if truthy cover then
           dir <- get_book_dir ;;
           cover_path <- lift (os_path_join dir cover) ;;
           f <- isfile cover_path ;;
           if negb f then
             warn ("book.json references coverImage '" ++ py_str cover ++ "' but file not found")
           else ret tt
         else ret tt) ;;
        _ <- lift (py_getitem meta "title") ;;
        _ <- lift (py_getitem meta "author") ;;
        ok ;;
        (* [return meta]: [meta.get] above went through, so [meta] is a dict *)
        match meta with
        | JObj d => ret (Some d)
        | _ => lift (Raise AttributeError)
        end
  end.

Definition entry_fields : list string := ["chapter"; "snapshot"; "delta"].

Definition _check_chapters_index : M (option (list json)) :=
  index <- load_json "chapters/index.json" ;;
  match index with
  | JNull =>
      error "chapters/index.json is missing or invalid" ;;
      ret None
  | JArr l =>
      if Nat.eqb (List.length l) 0 then
        error "chapters/index.json is empty" ;;
        ret None
      else
        (* Validate each entry has required fields *)
        for_each (enumerate l)
          (fun ie =>
             for_each entry_fields
               (fun field =>
                  b <- lift (str_in field (snd ie)) ;;
                  if negb b then
                    error ("chapters/index.json[" ++ str_of_nat (fst ie) ++ "] missing '" ++ field ++ "'")
                  else ret tt)) ;;
        ok ;;
        ret (Some l)
  | _ =>
      error "chapters/index.json is not an array" ;;
      ret None
  end.

Definition _check_chapter_files (index : list json) : M unit :=
  dir <- get_book_dir ;;
  let chapters_dir := path_join dir "chapters" in
  found <- for_fold index
    (fun acc entry =>
       snap <- lift (py_get entry "snapshot" (JStr "")) ;;
       delta <- lift (py_get entry "delta" (JStr "")) ;;
       ch <- lift (py_get entry "chapter" (JStr "?")) ;;
       missing_snapshots <-
         (if truthy snap then
            p <- lift (os_path_join chapters_dir snap) ;;
            f <- isfile p ;;
            ret (if negb f then (fst acc ++ [(ch, snap)])%list else fst acc)
          else ret (fst acc)) ;;
       missing_deltas <-
         (if truthy delta then
            p <- lift (os_path_join chapters_dir delta) ;;
            f <- isfile p ;;
            ret (if negb f then (snd acc ++ [(ch, delta)])%list else snd acc)
          else ret (snd acc)) ;;
       ret (missing_snapshots, missing_deltas))
    ([], []) ;;
  let missing_snapshots := fst found in
  let missing_deltas := snd found in
  (if nonempty missing_snapshots then
     error (str_of_nat (List.length missing_snapshots) ++ " snapshot file(s) missing: "
            ++ show_missing missing_snapshots ++ ellipsis_after 5 missing_snapshots)
   else ok) ;;
  (if nonempty missing_deltas then
     error (str_of_nat (List.length missing_deltas) ++ " delta file(s) missing: "
            ++ show_missing missing_deltas ++ ellipsis_after 5 missing_deltas)
   else ok).

Definition _check_chapter_count (meta : dict) (index : list json) : M unit :=
  let declared := dict_get_or meta "chapterCount" (JInt 0) in
  let actual := List.length index in
  if negb (eq_int declared (Z.of_nat actual)) then
    error ("book.json chapterCount=" ++ py_str declared ++ " but chapters/index.json has "
           ++ str_of_nat actual ++ " entries")
  else ok.

Definition _check_characters_index : M (option dict) :=
  chars <- load_json "characters/index.json" ;;
  match chars with
  | JNull =>
      warn "characters/index.json is missing or invalid" ;;
      ret None
  | JObj d =>
      ok ;;
      ret (Some d)
  | _ =>
      warn "characters/index.json is not a dict" ;;
      ret None
  end.

Definition _check_character_count (meta chars : dict) : M unit :=
  let declared := dict_get_or meta "characterCount" (JInt 0) in
  let actual := dict_len chars in
  if negb (eq_int declared (Z.of_nat actual)) then
    warn ("book.json characterCount=" ++ py_str declared ++ " but characters/index.json has "
          ++ str_of_nat actual ++ " entries")
  else ok.

Definition is_dict (v : json) : bool :=
  match v with
  | JObj _ => true
  | _ => false
  end.

(** Check that node IDs in the last snapshot exist in characters/index.json. *)
Definition _check_node_character_coverage (index : list json) (chars : dict) : M unit :=
  (* Only check the last snapshot (it's cumulative, so it has all nodes) *)
  last_entry <- lift (py_last index) ;;
  snap_file <- lift (py_get last_entry "snapshot" (JStr "")) ;;
  if negb (truthy snap_file) then ret tt
  else
    snap <- load_json ("chapters/" ++ py_str snap_file) ;;
    if negb (truthy snap) || negb (is_dict snap) then ret tt
    else
      nodes <- lift (py_get snap "nodes" (JArr [])) ;;
      items <- lift (py_iter nodes) ;;
      missing <- for_fold items
        (fun missing node =>
           nid <- lift (py_get node "id" (JStr "")) ;;
           if truthy nid then
             b <- lift (in_dict nid chars) ;;
             ret (if negb b then (missing ++ [nid])%list else missing)
           else ret missing)
        [] ;;
      if nonempty missing then
        shown <- lift (py_join ", " (firstn 10 missing)) ;;
        warn (str_of_nat (List.length missing) ++ " node ID(s) not in characters/index.json: "
              ++ shown ++ ellipsis_after 10 missing)
      else
        _ <- lift (py_len nodes) ;;
        ok.

(** Warn if any snapshot has 0 nodes. *)
Definition _check_no_empty_snapshots (index : list json) : M unit :=
  empty <- for_fold index
    (fun empty entry =>
       snap_file <- lift (py_get entry "snapshot" (JStr "")) ;;
       ch <- lift (py_get entry "chapter" (JStr "?")) ;;
       if negb (truthy snap_file) then ret empty
       else
         snap <- load_json ("chapters/" ++ py_str snap_file) ;;
         if truthy snap && is_dict snap then
           nodes <- lift (py_get snap "nodes" (JArr [])) ;;
           n <- lift (py_len nodes) ;;
           ret (if Nat.eqb n 0 then (empty ++ [ch])%list else empty)
         else ret empty)
    [] ;;
  if nonempty empty then
    warn (str_of_nat (List.length empty) ++ " snapshot(s) have 0 nodes: chapters "
          ++ py_repr (JArr (firstn 10 empty)))
  else ok.

Definition summary : M bool :=
  fun w => Ok (negb (nonempty (errors w)), w).

(** Run all validation checks. Returns True if no errors. *)
Definition validate : M bool :=
  dir <- get_book_dir ;;
  d <- isdir dir ;;
  if negb d then
    error ("Directory does not exist: " ++ dir) ;;
    ret false
  else
    (* 1. book.json *)
    book_meta <- _check_book_json ;;
    (* 2. chapters/index.json *)
    chapter_index <- _check_chapters_index ;;
    (* 3. Chapter files exist *)
    (if available chapter_index then _check_chapter_files (the chapter_index) else ret tt) ;;
    (* 4. Chapter count consistency *)
    (if available book_meta && available chapter_index then
       _check_chapter_count (the book_meta) (the chapter_index)
     else ret tt) ;;
    (* 5. characters/index.json *)
    char_index <- _check_characters_index ;;
    (* 6. Character count consistency *)
    (if available book_meta && available char_index then
       _check_character_count (the book_meta) (the char_index)
     else ret tt) ;;
    (* 7. Node IDs exist in character registry *)
    (if available chapter_index && available char_index then
       _check_node_character_coverage (the chapter_index) (the char_index)
     else ret tt) ;;
    (* 8. No empty snapshots *)
    (if available chapter_index then _check_no_empty_snapshots (the chapter_index) else ret tt) ;;
    (* Summary *)
    summary.

(** [main]: a validator is made for the directory and [validate] is
    called on it once; what the caller sees are the verdict and the two
    lists. *)
Definition validate_run (fs : filesystem) (dir : string) (st : bool)
  : result (bool * list string * list string) :=
  match validate (new_validator fs dir st) with
  | Ok (passed, w) => Ok (passed, errors w, warnings w)
  | Raise e => Raise e
  end.

(** ** Findings

    The methods change [self] through [error] and [warn] only.  A
    finding is one such call; [record] replays a list of them. *)
Inductive finding : Type :=
| FError (msg : string)
| FWarning (msg : string).

Definition errors_of (st : bool) (fs : list finding) : list string :=
  flat_map (fun f =>
              match f with
              | FError msg => [msg]
              | FWarning msg => if st then [msg] else []
              end) fs.

Definition warnings_of (fs : list finding) : list string :=
  flat_map (fun f =>
              match f with
              | FError _ => []
              | FWarning msg => [msg]
              end) fs.

Definition record (fs : list finding) (w : world) : world :=
  mkWorld (disk w) (book_dir w) (strict w)
    (errors w ++ errors_of (strict w) fs)%list
    (warnings w ++ warnings_of fs)%list.

Definition replay {A} (r : result (A * list finding)) (w : world) : result (A * world) :=
  match r with
  | Ok (a, fs) => Ok (a, record fs w)
  | Raise e => Raise e
  end.

(** Two worlds of the same run: same file system, directory and mode. *)
Definition same_run (w0 w : world) : Prop :=
  disk w0 = disk w /\ book_dir w0 = book_dir w /\ strict w0 = strict w.

(** [m] reads the file system and the fixed fields of [self], and
    changes the two lists only by recording findings that do not depend
    on what the lists hold. *)
Definition reports {A} (m : M A) : Prop :=
  forall w, exists r, forall w0, same_run w0 w -> m w0 = replay r w0.

(** The checks of [validate] without the summary. *)
Definition run_checks : M unit :=
  dir <- get_book_dir ;;
  d <- isdir dir ;;
  if negb d then error ("Directory does not exist: " ++ dir)
  else
    book_meta <- _check_book_json ;;
    chapter_index <- _check_chapters_index ;;
    (if available chapter_index then _check_chapter_files (the chapter_index) else ret tt) ;;
    (if available book_meta && available chapter_index then
       _check_chapter_count (the book_meta) (the chapter_index)
     else ret tt) ;;
    char_index <- _check_characters_index ;;
    (if available book_meta && available char_index then
       _check_character_count (the book_meta) (the char_index)
     else ret tt) ;;
    (if available chapter_index && available char_index then
       _check_node_character_coverage (the chapter_index) (the char_index)
     else ret tt) ;;
    (if available chapter_index then _check_no_empty_snapshots (the chapter_index) else ret tt).

(** ** General facts *)

Lemma same_run_refl (w : world) : same_run w w.
Proof. repeat split. Qed.

Lemma same_run_record (fs : list finding) (w0 w : world) :
  same_run w0 w -> same_run (record fs w0) w.
Proof. intros (Hd & Hb & Hs). repeat split; assumption. Qed.

Lemma record_nil (w : world) : record [] w = w.
Proof. destruct w; unfold record; simpl. now rewrite !app_nil_r. Qed.

Lemma errors_of_app (st : bool) (fs1 fs2 : list finding) :
  errors_of st (fs1 ++ fs2) = (errors_of st fs1 ++ errors_of st fs2)%list.
Proof. apply flat_map_app. Qed.

Lemma warnings_of_app (fs1 fs2 : list finding) :
  warnings_of (fs1 ++ fs2) = (warnings_of fs1 ++ warnings_of fs2)%list.
Proof. apply flat_map_app. Qed.

Lemma record_app (fs1 fs2 : list finding) (w : world) :
  record (fs1 ++ fs2) w = record fs2 (record fs1 w).
Proof.
  unfold record; simpl.
  now rewrite errors_of_app, warnings_of_app, !app_assoc.
Qed.

Lemma reports_ret {A} (a : A) : reports (ret a).
Proof.
  intros w. exists (Ok (a, [])). intros w0 _.
  unfold ret, replay. now rewrite record_nil.
Qed.

Lemma reports_lift {A} (r : result A) : reports (lift r).
Proof.
  intros w. destruct r as [a | e].
  - exists (Ok (a, [])). intros w0 _. simpl. now rewrite record_nil.
  - exists (Raise e). reflexivity.
Qed.

Lemma reports_bind {A B} (m : M A) (k : A -> M B) :
  reports m -> (forall a, reports (k a)) -> reports (bind m k).
Proof.
  intros Hm Hk w.
  destruct (Hm w) as [[[a fs1] | e] H1].
  - destruct (Hk a w) as [[[b fs2] | e] H2].
    + exists (Ok (b, (fs1 ++ fs2)%list)). intros w0 Hw.
      unfold bind. rewrite (H1 w0 Hw). simpl.
      rewrite (H2 _ (same_run_record fs1 _ _ Hw)). simpl.
      now rewrite record_app.
    + exists (Raise e). intros w0 Hw.
      unfold bind. rewrite (H1 w0 Hw). simpl.
      now rewrite (H2 _ (same_run_record fs1 _ _ Hw)).
  - exists (Raise e). intros w0 Hw.
    unfold bind. now rewrite (H1 w0 Hw).
Qed.

Lemma reports_error (msg : string) : reports (error msg).
Proof.
  intros w. exists (Ok (tt, [FError msg])). intros w0 _.
  unfold error, add_error, replay, record; simpl. now rewrite !app_nil_r.
Qed.

Lemma reports_warn (msg : string) : reports (warn msg).
Proof.
  intros w. exists (Ok (tt, [FWarning msg])). intros w0 _.
  unfold warn, add_warning, replay, record; simpl.
  destruct (strict w0); now rewrite !app_nil_r.
Qed.

Lemma reports_ok : reports ok.
Proof. apply reports_ret. Qed.

Lemma reports_get_book_dir : reports get_book_dir.
Proof.
  intros w. exists (Ok (book_dir w, [])). intros w0 (_ & Hb & _).
  unfold get_book_dir, replay. now rewrite record_nil, Hb.
Qed.

Lemma reports_isfile (p : string) : reports (isfile p).
Proof.
  intros w. exists (Ok (fs_isfile (disk w) p, [])). intros w0 (Hd & _).
  unfold isfile, replay. now rewrite record_nil, Hd.
Qed.

Lemma reports_isdir (p : string) : reports (isdir p).
Proof.
  intros w. exists (Ok (fs_isdir (disk w) p, [])). intros w0 (Hd & _).
  unfold isdir, replay. now rewrite record_nil, Hd.
Qed.

Lemma reports_json_load (p : string) : reports (json_load p).
Proof.
  intros w. destruct (fs_load (disk w) p) as [v | e] eqn:E.
  - exists (Ok (v, [])). intros w0 (Hd & _).
    unfold json_load. rewrite Hd, E. simpl. now rewrite record_nil.
  - exists (Raise e). intros w0 (Hd & _).
    unfold json_load. now rewrite Hd, E.
Qed.

Lemma reports_try_decode {A} (m : M A) (h : string -> M A) :
  reports m -> (forall e, reports (h e)) -> reports (try_decode m h).
Proof.
  intros Hm Hh w.
  destruct (Hm w) as [[[a fs] | e] H1].
  - exists (Ok (a, fs)). intros w0 Hw.
    unfold try_decode. now rewrite (H1 w0 Hw).
  - destruct e;
      try (eexists (Raise _); intros w0 Hw; unfold try_decode;
           rewrite (H1 w0 Hw); reflexivity).
    destruct (Hh e w) as [r H2]. exists r. intros w0 Hw.
    unfold try_decode. rewrite (H1 w0 Hw). simpl. now apply H2.
Qed.

Lemma reports_for_each {A} (l : list A) (body : A -> M unit) :
  (forall x, reports (body x)) -> reports (for_each l body).
Proof.
  intros Hb. induction l as [| x l IH]; simpl.
  - apply reports_ret.
  - apply reports_bind; auto.
Qed.

Lemma reports_for_fold {A S} (l : list A) (body : S -> A -> M S) (acc : S) :
  (forall s x, reports (body s x)) -> reports (for_fold l body acc).
Proof.
  intros Hb. revert acc. induction l as [| x l IH]; intros acc; simpl.
  - apply reports_ret.
  - apply reports_bind; auto.
Qed.

Ltac reports_step :=
  match goal with
  | |- reports (bind _ _) => apply reports_bind; [ | intro ]
  | |- reports (ret _) => apply reports_ret
  | |- reports ok => apply reports_ok
  | |- reports (lift _) => apply reports_lift
  | |- reports (error _) => apply reports_error
  | |- reports (warn _) => apply reports_warn
  | |- reports get_book_dir => apply reports_get_book_dir
  | |- reports (isfile _) => apply reports_isfile
  | |- reports (isdir _) => apply reports_isdir
  | |- reports (json_load _) => apply reports_json_load
  | |- reports (try_decode _ _) => apply reports_try_decode; [ | intro ]
  | |- reports (for_each _ _) => apply reports_for_each; intro
  | |- reports (for_fold _ _ _) => apply reports_for_fold; intros
  | |- reports (if ?b then _ else _) => destruct b
  | |- reports (match ?x with _ => _ end) => destruct x
  | |- reports _ => progress cbv zeta
  end.

Ltac reports_auto := repeat reports_step.

Lemma reports_load_json (rel_path : string) : reports (load_json rel_path).
Proof. unfold load_json. reports_auto. Qed.

Lemma reports_check_book_json : reports _check_book_json.
Proof. unfold _check_book_json. pose proof reports_load_json. reports_auto; auto. Qed.

Lemma reports_check_chapters_index : reports _check_chapters_index.
Proof. unfold _check_chapters_index. pose proof reports_load_json. reports_auto; auto. Qed.

Lemma reports_check_chapter_files (index : list json) : reports (_check_chapter_files index).
Proof. unfold _check_chapter_files. reports_auto. Qed.

Lemma reports_check_chapter_count (meta : dict) (index : list json) :
  reports (_check_chapter_count meta index).
Proof. unfold _check_chapter_count. reports_auto. Qed.

Lemma reports_check_characters_index : reports _check_characters_index.
Proof. unfold _check_characters_index. pose proof reports_load_json. reports_auto; auto. Qed.

Lemma reports_check_character_count (meta chars : dict) :
  reports (_check_character_count meta chars).
Proof. unfold _check_character_count. reports_auto. Qed.

Lemma reports_check_node_character_coverage (index : list json) (chars : dict) :
  reports (_check_node_character_coverage index chars).
Proof.
  unfold _check_node_character_coverage. pose proof reports_load_json. reports_auto; auto.
Qed.

Lemma reports_check_no_empty_snapshots (index : list json) :
  reports (_check_no_empty_snapshots index).
Proof.
  unfold _check_no_empty_snapshots. pose proof reports_load_json. reports_auto; auto.
Qed.

Lemma reports_run_checks : reports run_checks.
Proof.
  unfold run_checks.
  pose proof reports_check_book_json. pose proof reports_check_chapters_index.
  pose proof reports_check_chapter_files. pose proof reports_check_chapter_count.
  pose proof reports_check_characters_index. pose proof reports_check_character_count.
  pose proof reports_check_node_character_coverage.
  pose proof reports_check_no_empty_snapshots.
  reports_auto; auto.
Qed.

(** What a reporting method leaves behind is the world it started in
    with some findings recorded. *)
Lemma reports_record {A} (m : M A) (w w' : world) (a : A) :
  reports m -> m w = Ok (a, w') -> exists fs, w' = record fs w.
Proof.
  intros Hm Hrun. destruct (Hm w) as [r Hr].
  rewrite (Hr w (same_run_refl w)) in Hrun.
  destruct r as [[a' fs] | e]; simpl in Hrun; [ | discriminate ].
  exists fs. congruence.
Qed.

Lemma nonempty_app_r {A} (l : list A) (x : A) : nonempty (l ++ [x]) = true.
Proof. destruct l; reflexivity. Qed.

(** [validate] is the checks followed by the summary: the early return
    for a missing directory agrees with the summary, its one error being
    on the list. *)
Lemma validate_run_checks (w : world) : validate w = (run_checks ;; summary) w.
Proof.
  unfold validate, run_checks, bind, get_book_dir, isdir.
  destruct (fs_isdir (disk w) (book_dir w)); simpl.
  - repeat match goal with
           | |- context [match ?m ?x with Ok _ => _ | Raise _ => _ end] =>
               destruct (m x) as [[? ?] | ?]; simpl; try reflexivity
           end.
  - unfold summary; simpl. now rewrite nonempty_app_r.
Qed.

(** The outcome of [validate] in terms of findings: the verdict is read
    off the error list the findings leave. *)
Lemma validate_findings (w : world) :
  exists r : result (list finding),
    forall w0, same_run w0 w ->
      validate w0 =
      match r with
      | Ok fs => Ok (negb (nonempty (errors (record fs w0))), record fs w0)
      | Raise e => Raise e
      end.
Proof.
  destruct (reports_run_checks w) as [r Hr].
  destruct r as [[[] fs] | e].
  - exists (Ok fs). intros w0 Hw.
    rewrite validate_run_checks. unfold bind. now rewrite (Hr w0 Hw).
  - exists (Raise e). intros w0 Hw.
    rewrite validate_run_checks. unfold bind. now rewrite (Hr w0 Hw).
Qed.

Lemma validate_fresh (fs : filesystem) (dir : string) (st : bool) (passed : bool) (w' : world) :
  validate (new_validator fs dir st) = Ok (passed, w') ->
  exists found,
    w' = mkWorld fs dir st (errors_of st found) (warnings_of found)
    /\ passed = negb (nonempty (errors_of st found)).
Proof.
  intros Hrun.
  destruct (validate_findings (new_validator fs dir st)) as [r Hr].
  rewrite (Hr _ (same_run_refl _)) in Hrun.
  destruct r as [found | e]; [ | discriminate ].
  exists found. unfold record in Hrun; simpl in Hrun.
  split; congruence.
Qed.

Lemma bind_ok {A B} (m : M A) (k : A -> M B) (w w2 : world) (b : B) :
  bind m k w = Ok (b, w2) ->
  exists a w1, m w = Ok (a, w1) /\ k a w1 = Ok (b, w2).
Proof.
  unfold bind. destruct (m w) as [[a w1] | e]; [ | discriminate ].
  intros H. now exists a, w1.
Qed.

Lemma warnings_in_errors (fs : list finding) :
  incl (warnings_of fs) (errors_of true fs).
Proof.
  induction fs as [| [msg | msg] fs IH]; simpl.
  - apply incl_refl.
  - now apply incl_tl.
  - intros x [<- | Hx]; [ now left | right; now apply IH ].
Qed.

(** ** Strict mode *)

(** C2. In strict mode [warn] puts the message on both lists at once, a
    strict run that returns with a warning on its list has failed, and a
    run that is not strict and returns with an empty error list has
    passed, whatever its warnings. *)
Theorem strict_mode_verdict :
  (forall (w : world) (msg : string),
      strict w = true ->
      warn msg w
      = Ok (tt, mkWorld (disk w) (book_dir w) true
                  (errors w ++ [msg])%list (warnings w ++ [msg])%list))
  /\ (forall fs dir passed es ws,
         validate_run fs dir true = Ok (passed, es, ws) ->
         ws <> [] -> incl ws es /\ passed = false)
  /\ (forall fs dir passed es ws,
         validate_run fs dir false = Ok (passed, es, ws) ->
         es = [] -> passed = true).
Proof.
  split; [ | split ].
  - intros w msg Hs. unfold warn, add_warning. now rewrite Hs.
  - intros fs dir passed es ws Hrun Hws.
    unfold validate_run in Hrun.
    destruct (validate (new_validator fs dir true)) as [[p w'] | e] eqn:Hv; [ | discriminate ].
    apply validate_fresh in Hv. destruct Hv as (found & -> & ->).
    simpl in Hrun. injection Hrun as <- <- <-.
    pose proof (warnings_in_errors found) as Hincl.
    split; [ exact Hincl | ].
    destruct (warnings_of found) as [| x l]; [ congruence | ].
    destruct (errors_of true found) as [| y l'].
    + exfalso. apply (Hincl x). now left.
    + reflexivity.
  - intros fs dir passed es ws Hrun Hes.
    unfold validate_run in Hrun.
    destruct (validate (new_validator fs dir false)) as [[p w'] | e] eqn:Hv; [ | discriminate ].
    apply validate_fresh in Hv. destruct Hv as (found & -> & ->).
    simpl in Hrun. injection Hrun as <- <- <-.
    now rewrite Hes.
Qed.

(** ** Running twice *)

(** Two runs one after the other, as [main] makes them: a new validator
    each time, the second facing the file system the first one left. *)
Definition validate_twice (fs : filesystem) (dir : string) (st : bool)
  : result ((bool * list string * list string) * (bool * list string * list string)) :=
  match validate (new_validator fs dir st) with
  | Ok (p1, w1) =>
      match validate (new_validator (disk w1) dir st) with
      | Ok (p2, w2) => Ok ((p1, errors w1, warnings w1), (p2, errors w2, warnings w2))
      | Raise e => Raise e
      end
  | Raise e => Raise e
  end.

(** C9. A run leaves the file system as it found it, and a second run on
    the same directory with the same mode returns the same verdict, the
    same error list and the same warning list as the first. *)
Theorem validate_twice_same_lists (fs : filesystem) (dir : string) (st : bool)
    (passed : bool) (w' : world) :
  validate (new_validator fs dir st) = Ok (passed, w') ->
  disk w' = fs
  /\ validate_twice fs dir st
     = Ok ((passed, errors w', warnings w'), (passed, errors w', warnings w')).
Proof.
  intros Hrun.
  assert (Hdisk : disk w' = fs).
  { apply validate_fresh in Hrun. now destruct Hrun as (found & -> & _). }
  split; [ exact Hdisk | ].
  unfold validate_twice. rewrite Hrun, Hdisk, Hrun. reflexivity.
Qed.


(** ** The loader *)

Lemma load_json_cases (rel_path : string) (w : world) :
  load_json rel_path w =
  match disk w (path_join (book_dir w) rel_path) with
  | Some (RegularFile (Decoded v)) => Ok (v, w)
  | Some (RegularFile (Undecodable e)) =>
      Ok (JNull, add_error (rel_path ++ ": invalid JSON " ++ em_dash ++ " " ++ e) w)
  | _ => Ok (JNull, w)
  end.
Proof.
  unfold load_json, bind, get_book_dir, isfile, fs_isfile, try_decode, json_load, fs_load.
  destruct (disk w (path_join (book_dir w) rel_path)) as [[names | [v | e]] | ] eqn:E;
    simpl; rewrite ?E; reflexivity.
Qed.

Lemma reports_same_run {A} (m : M A) (w w' : world) (a : A) :
  reports m -> m w = Ok (a, w') -> same_run w' w.
Proof.
  intros Hm Hrun. destruct (reports_record m w w' a Hm Hrun) as (fs & ->).
  apply same_run_record, same_run_refl.
Qed.

(** ** The character registry *)

(** The registry file is absent or decodes to something that is no
    dict: the message of the warning this draws. *)
Definition registry_unavailable (fs : filesystem) (dir : string) : option string :=
  match fs (path_join dir "characters/index.json") with
  | Some (RegularFile (Undecodable _)) => None
  | Some (RegularFile (Decoded (JObj _))) => None
  | Some (RegularFile (Decoded JNull)) => Some "characters/index.json is missing or invalid"
  | Some (RegularFile (Decoded _)) => Some "characters/index.json is not a dict"
  | _ => Some "characters/index.json is missing or invalid"
  end.

Lemma check_characters_index_unavailable (w : world) (msg : string) :
  registry_unavailable (disk w) (book_dir w) = Some msg ->
  _check_characters_index w = Ok (None, add_warning msg w).
Proof.
  intros Hreg.
  unfold registry_unavailable in Hreg.
  unfold _check_characters_index, bind. rewrite load_json_cases.
  destruct (disk w (path_join (book_dir w) "characters/index.json")) as [[names | [v | e]] | ];
    try discriminate; try (injection Hreg as <-; reflexivity).
  destruct v; try discriminate; injection Hreg as <-; reflexivity.
Qed.

Lemma registry_unavailable_same_run (w w' : world) :
  same_run w' w ->
  registry_unavailable (disk w') (book_dir w') = registry_unavailable (disk w) (book_dir w).
Proof. intros (Hd & Hb & _). now rewrite Hd, Hb. Qed.


Lemma bind_get_book_dir {B} (k : string -> M B) (w : world) :
  bind get_book_dir k w = k (book_dir w) w.
Proof. reflexivity. Qed.

Lemma bind_isdir {B} (p : string) (k : bool -> M B) (w : world) :
  bind (isdir p) k w = k (fs_isdir (disk w) p) w.
Proof. reflexivity. Qed.

Lemma bind_ret {A B} (a : A) (k : A -> M B) (w : world) : bind (ret a) k w = k a w.
Proof. reflexivity. Qed.

Lemma bind_error {B} (msg : string) (k : unit -> M B) (w : world) :
  bind (error msg) k w = k tt (add_error msg w).
Proof. reflexivity. Qed.

Lemma bind_warn {B} (msg : string) (k : unit -> M B) (w : world) :
  bind (warn msg) k w = k tt (add_warning msg w).
Proof. reflexivity. Qed.

Lemma bind_lift_ok {A B} (a : A) (k : A -> M B) (w : world) :
  bind (lift (Ok a)) k w = k a w.
Proof. reflexivity. Qed.

Lemma bind_load_json {B} (rel_path : string) (k : json -> M B) (w : world) :
  bind (load_json rel_path) k w =
  match disk w (path_join (book_dir w) rel_path) with
  | Some (RegularFile (Decoded v)) => k v w
  | Some (RegularFile (Undecodable e)) =>
      k JNull (add_error (rel_path ++ ": invalid JSON " ++ em_dash ++ " " ++ e) w)
  | _ => k JNull w
  end.
Proof.
  unfold bind. rewrite load_json_cases.
  destruct (disk w (path_join (book_dir w) rel_path)) as [[names | [v | e]] | ]; reflexivity.
Qed.

(** Two runs with the same first step agree when they agree after it. *)
Lemma bind_same_step {A B} (m : M A) (k1 k2 : A -> M B) (w : world) :
  (forall a w1, m w = Ok (a, w1) -> k1 a w1 = k2 a w1) ->
  bind m k1 w = bind m k2 w.
Proof.
  intros H. unfold bind. destruct (m w) as [[a w1] | e]; [ now apply H | reflexivity ].
Qed.

Lemma same_run_trans (w1 w2 w3 : world) : same_run w1 w2 -> same_run w2 w3 -> same_run w1 w3.
Proof. unfold same_run. intuition congruence. Qed.

Lemma reports_skippable (b : bool) (m : M unit) : reports m -> reports (if b then m else ret tt).
Proof. intros Hm. destruct b; [ exact Hm | apply reports_ret ]. Qed.


(** ** The chapter index *)

(** The lists only grow. *)
Lemma reports_grows {A} (m : M A) (w w' : world) (a : A) :
  reports m -> m w = Ok (a, w') ->
  exists es ws, errors w' = (errors w ++ es)%list /\ warnings w' = (warnings w ++ ws)%list.
Proof.
  intros Hm Hrun. destruct (reports_record m w w' a Hm Hrun) as (fs & ->).
  now exists (errors_of (strict w) fs), (warnings_of fs).
Qed.

Lemma reports_keeps_failure {A} (m : M A) (w w' : world) (a : A) :
  reports m -> m w = Ok (a, w') ->
  nonempty (errors w) = true -> nonempty (errors w') = true.
Proof.
  intros Hm Hrun Hne. destruct (reports_grows m w w' a Hm Hrun) as (es & ws & -> & _).
  destruct (errors w); [ discriminate | reflexivity ].
Qed.

Lemma check_chapters_index_empty (w : world) :
  disk w (path_join (book_dir w) "chapters/index.json") = Some (RegularFile (Decoded (JArr []))) ->
  _check_chapters_index w = Ok (None, add_error "chapters/index.json is empty" w).
Proof.
  intros Hidx. unfold _check_chapters_index, bind. rewrite load_json_cases, Hidx. reflexivity.
Qed.



(** ** Packages on which no check raises *)

(** A value that is a str or counts as false: what [os.path.join] and
    [", ".join] are given when the value has been tested for truth. *)
Definition str_or_false (v : json) : bool :=
  match v with
  | JStr _ => true
  | _ => negb (truthy v)
  end.

(** An index entry that is a dict whose file names are strs. *)
Definition entry_ok (e : json) : bool :=
  match e with
  | JObj d =>
      str_or_false (dict_get_or d "snapshot" (JStr ""))
      && str_or_false (dict_get_or d "delta" (JStr ""))
  | _ => false
  end.

(** A node that is a dict whose id is a str. *)
Definition node_ok (n : json) : bool :=
  match n with
  | JObj d => str_or_false (dict_get_or d "id" (JStr ""))
  | _ => false
  end.

(** A snapshot that, when it is a dict, has a list of such nodes. *)
Definition snapshot_ok (v : json) : bool :=
  match v with
  | JObj d =>
      match dict_get_or d "nodes" (JArr []) with
      | JArr l => forallb node_ok l
      | _ => false
      end
  | _ => true
  end.

(** A book.json that is [null] or a dict whose cover is a str. *)
Definition book_ok (v : json) : bool :=
  match v with
  | JNull => true
  | JObj d => str_or_false (dict_get_or d "coverImage" JNull)
  | _ => false
  end.

(** The file at [p], when there is one and it decodes, is as [ok] asks. *)
Definition decoded_ok (ok : json -> bool) (fs : filesystem) (p : string) : bool :=
  match fs p with
  | Some (RegularFile (Decoded v)) => ok v
  | _ => true
  end.

Definition entry_snapshot_ok (fs : filesystem) (dir : string) (e : json) : bool :=
  match e with
  | JObj d =>
      match dict_get_or d "snapshot" (JStr "") with
      | JStr s => decoded_ok snapshot_ok fs (path_join dir ("chapters/" ++ s))
      | _ => true
      end
  | _ => true
  end.

Definition index_ok (fs : filesystem) (dir : string) (v : json) : bool :=
  match v with
  | JArr l => forallb entry_ok l && forallb (entry_snapshot_ok fs dir) l
  | _ => true
  end.

(** The shape the checks rely on without testing for it. *)
Definition well_shaped (fs : filesystem) (dir : string) : bool :=
  decoded_ok book_ok fs (path_join dir "book.json")
  && decoded_ok (index_ok fs dir) fs (path_join dir "chapters/index.json").

(** [m] returns from [w]. *)
Definition returns {A} (m : M A) (w : world) : Prop :=
  exists a w', m w = Ok (a, w').

Lemma bind_isfile {B} (p : string) (k : bool -> M B) (w : world) :
  bind (isfile p) k w = k (fs_isfile (disk w) p) w.
Proof. reflexivity. Qed.

Lemma bind_assoc {A B C} (m : M A) (k1 : A -> M B) (k2 : B -> M C) (w : world) :
  bind (bind m k1) k2 w = bind m (fun a => bind (k1 a) k2) w.
Proof. unfold bind. destruct (m w) as [[a w'] | e]; reflexivity. Qed.

Lemma returns_bind {A B} (m : M A) (k : A -> M B) (w : world) :
  returns m w ->
  (forall a w', m w = Ok (a, w') -> returns (k a) w') ->
  returns (bind m k) w.
Proof.
  intros (a & w' & Hm) Hk. unfold returns, bind. rewrite Hm. now apply Hk.
Qed.

Lemma returns_now {A} (a : A) (w w' : world) (m : M A) : m w = Ok (a, w') -> returns m w.
Proof. intros H. now exists a, w'. Qed.

Ltac run_step :=
  first [ rewrite bind_assoc | rewrite bind_ret | rewrite bind_lift_ok | rewrite bind_error
        | rewrite bind_warn | rewrite bind_get_book_dir | rewrite bind_isdir
        | rewrite bind_isfile ].

Ltac returned := unfold returns; do 2 eexists; reflexivity.

Lemma for_each_inv {A} (I : world -> Prop) (l : list A) (body : A -> M unit) :
  (forall x w, In x l -> I w -> exists w', body x w = Ok (tt, w') /\ I w') ->
  forall w, I w -> exists w', for_each l body w = Ok (tt, w') /\ I w'.
Proof.
  induction l as [| x l IH]; intros Hbody w Hw; simpl.
  - now exists w.
  - destruct (Hbody x w (or_introl eq_refl) Hw) as (w1 & E1 & H1).
    unfold bind. rewrite E1.
    apply IH; [ | exact H1 ].
    intros y w0 Hy. apply Hbody. now right.
Qed.

Lemma for_fold_inv {A S} (I : S -> world -> Prop) (l : list A) (body : S -> A -> M S) :
  (forall x acc w, In x l -> I acc w ->
     exists acc' w', body acc x w = Ok (acc', w') /\ I acc' w') ->
  forall acc w, I acc w ->
    exists acc' w', for_fold l body acc w = Ok (acc', w') /\ I acc' w'.
Proof.
  induction l as [| x l IH]; intros Hbody acc w Hw; simpl.
  - now exists acc, w.
  - destruct (Hbody x acc w (or_introl eq_refl) Hw) as (acc1 & w1 & E1 & H1).
    unfold bind. rewrite E1.
    apply IH; [ | exact H1 ].
    intros y acc0 w0 Hy. apply Hbody. now right.
Qed.

Lemma str_or_false_truthy (v : json) :
  str_or_false v = true -> truthy v = true -> exists s, v = JStr s.
Proof.
  destruct v; simpl; intros H Ht; try (rewrite Ht in H; discriminate);
    try discriminate.
  now exists s.
Qed.

Lemma missing_fields_dict (required : list string) (d : dict) :
  missing_fields required (JObj d)
  = Ok (filter (fun k => negb (dict_mem k d)) required).
Proof.
  induction required as [| k required IH]; simpl; [ reflexivity | ].
  rewrite IH. reflexivity.
Qed.

Lemma dict_mem_get (k : string) (d : dict) :
  dict_mem k d = true -> exists v, dict_get k d = Some v.
Proof. unfold dict_mem. destruct (dict_get k d) as [v | ]; [ now exists v | discriminate ]. Qed.

Lemma check_book_json_total (w : world) :
  decoded_ok book_ok (disk w) (path_join (book_dir w) "book.json") = true ->
  returns _check_book_json w.
Proof.
  unfold decoded_ok, returns, _check_book_json. rewrite bind_load_json.
  destruct (disk w (path_join (book_dir w) "book.json")) as [[names | [v | e]] | ];
    intros Hok; try (repeat run_step; returned).
  destruct v; try discriminate.
  - repeat run_step. returned.
  - cbn [book_ok] in Hok.
    rewrite missing_fields_dict. rewrite bind_lift_ok.
    destruct (filter (fun k => negb (dict_mem k d)) required_fields) as [| k0 ks] eqn:Hmiss;
      cbn [nonempty]; [ | repeat run_step; returned ].
    assert (Hall : forall k, In k required_fields -> dict_mem k d = true).
    { intros k Hk. destruct (dict_mem k d) eqn:Hm; [ reflexivity | ].
      assert (Hin : In k (filter (fun k => negb (dict_mem k d)) required_fields)).
      { apply filter_In. split; [ exact Hk | now rewrite Hm ]. }
      rewrite Hmiss in Hin. contradiction. }
    destruct (dict_mem_get "title" d) as (title & Htitle);
      [ apply Hall; simpl; tauto | ].
    destruct (dict_mem_get "author" d) as (author & Hauthor);
      [ apply Hall; simpl; tauto | ].
    cbn [py_get py_getitem]. rewrite Htitle, Hauthor.
    rewrite bind_lift_ok.
    destruct (negb (eq_str (dict_get_or d "schemaVersion" JNull) "1.0"));
      repeat run_step.
    all: destruct (truthy (dict_get_or d "coverImage" JNull)) eqn:Hcover.
    all: try (repeat run_step; returned).
    all: destruct (str_or_false_truthy _ Hok Hcover) as (s & ->).
    all: cbn [os_path_join]; repeat run_step.
    all: destruct (negb (fs_isfile _ _)); repeat run_step; returned.
Qed.

Lemma in_enumerate_from {A} (l : list A) (i j : nat) (x : A) :
  In (j, x) (enumerate_from i l) -> In x l.
Proof.
  revert i. induction l as [| y l IH]; simpl; intros i H; [ contradiction | ].
  destruct H as [H | H]; [ left; congruence | right; eauto ].
Qed.

Lemma entry_ok_dict (e : json) : entry_ok e = true -> exists d, e = JObj d.
Proof. destruct e; try discriminate. now exists d. Qed.

Lemma check_chapters_index_total (w : world) :
  decoded_ok (index_ok (disk w) (book_dir w)) (disk w)
    (path_join (book_dir w) "chapters/index.json") = true ->
  returns _check_chapters_index w.
Proof.
  unfold decoded_ok, _check_chapters_index. unfold returns at 1. rewrite bind_load_json.
  destruct (disk w (path_join (book_dir w) "chapters/index.json")) as [[names | [v | e]] | ];
    intros Hok; try (repeat run_step; returned).
  destruct v; try (repeat run_step; returned).
  destruct (Nat.eqb (List.length l) 0); [ repeat run_step; returned | ].
  cbn [index_ok] in Hok. apply andb_true_iff in Hok. destruct Hok as [Hentries _].
  rewrite forallb_forall in Hentries.
  destruct (for_each_inv (fun _ => True) (enumerate l)
              (fun ie =>
                 for_each entry_fields
                   (fun field =>
                      b <- lift (str_in field (snd ie)) ;;
                      if negb b then
                        error ("chapters/index.json[" ++ str_of_nat (fst ie) ++ "] missing '"
                               ++ field ++ "'")
                      else ret tt))) with (w := w) as (w1 & E1 & _); [ | exact I | ].
  - intros [i x] w0 Hin _. cbn [fst snd].
    destruct (entry_ok_dict x (Hentries x (in_enumerate_from _ _ _ _ Hin))) as (d & ->).
    apply for_each_inv; [ | exact I ].
    intros field w2 _ _. cbn [str_in]. rewrite bind_lift_ok.
    destruct (negb (dict_mem field d)); eexists; split; try reflexivity; exact I.
  - unfold bind at 1. rewrite E1. repeat run_step. returned.
Qed.

Lemma check_chapters_index_some (w w' : world) (l : list json) :
  _check_chapters_index w = Ok (Some l, w') ->
  disk w (path_join (book_dir w) "chapters/index.json") = Some (RegularFile (Decoded (JArr l))).
Proof.
  unfold _check_chapters_index. rewrite bind_load_json.
  destruct (disk w (path_join (book_dir w) "chapters/index.json")) as [[names | [v | e]] | ];
    try (repeat run_step; discriminate).
  destruct v; try (repeat run_step; discriminate).
  destruct (Nat.eqb (List.length l0) 0); [ repeat run_step; discriminate | ].
  intros H. repeat (apply bind_ok in H; destruct H as (? & ? & _ & H)).
  injection H as <- _. reflexivity.
Qed.

Lemma check_chapter_files_total (index : list json) (w : world) :
  forallb entry_ok index = true ->
  returns (_check_chapter_files index) w.
Proof.
  intros Hentries. rewrite forallb_forall in Hentries.
  unfold _check_chapter_files, returns. rewrite bind_get_book_dir. cbv zeta.
  match goal with
  | |- context [for_fold index ?loop ?start] =>
      destruct (for_fold_inv (fun _ w' => w' = w) index loop) with (acc := start) (w := w)
        as (found & w1 & E1 & ->); [ | reflexivity | ]
  end.
  - intros x acc w0 Hin ->.
    pose proof (Hentries x Hin) as Hx.
    destruct (entry_ok_dict x Hx) as (d & ->).
    cbn [entry_ok] in Hx. apply andb_true_iff in Hx. destruct Hx as [Hsnap Hdelta].
    cbn [py_get]. repeat run_step.
    destruct (truthy (dict_get_or d "snapshot" (JStr ""))) eqn:Ts;
      [ destruct (str_or_false_truthy _ Hsnap Ts) as (s & ->); cbn [os_path_join] | ];
      repeat run_step.
    all: destruct (truthy (dict_get_or d "delta" (JStr ""))) eqn:Td;
      [ destruct (str_or_false_truthy _ Hdelta Td) as (s' & ->); cbn [os_path_join] | ];
      repeat run_step.
    all: do 2 eexists; split; reflexivity.
  - unfold bind at 1. rewrite E1.
    destruct (nonempty (fst found)); repeat run_step;
      destruct (nonempty (snd found)); unfold ok; repeat run_step; returned.
Qed.

Lemma check_chapter_count_total (meta : dict) (index : list json) (w : world) :
  returns (_check_chapter_count meta index) w.
Proof.
  unfold _check_chapter_count. cbv zeta.
  destruct (negb (eq_int _ _)); returned.
Qed.

Lemma check_characters_index_total (w : world) : returns _check_characters_index w.
Proof.
  unfold _check_characters_index, returns. rewrite bind_load_json.
  destruct (disk w (path_join (book_dir w) "characters/index.json")) as [[names | [v | e]] | ];
    try (repeat run_step; returned).
  destruct v; unfold ok; repeat run_step; returned.
Qed.

Lemma check_character_count_total (meta chars : dict) (w : world) :
  returns (_check_character_count meta chars) w.
Proof.
  unfold _check_character_count. cbv zeta.
  destruct (negb (eq_int _ _)); returned.
Qed.

Definition is_str (v : json) : Prop := exists s, v = JStr s.

Lemma py_join_strs (sep : string) (l : list json) :
  Forall is_str l -> exists s, py_join sep l = Ok s.
Proof.
  intros H. unfold py_join.
  assert (Hss : exists ss, strs_of l = Ok ss).
  { induction H as [| v l (s & ->) _ (ss & IH)]; simpl.
    - now exists [].
    - rewrite IH. now exists (s :: ss). }
  destruct Hss as (ss & ->). now eexists.
Qed.

Lemma Forall_firstn {A} (P : A -> Prop) (n : nat) (l : list A) :
  Forall P l -> Forall P (firstn n l).
Proof.
  intros H. revert n. induction H; intros [| n]; simpl; constructor; auto.
Qed.

Lemma py_last_in (l : list json) : l <> [] -> exists x, py_last l = Ok x /\ In x l.
Proof.
  destruct l as [| y l]; [ congruence | ]. intros _.
  exists (last l y). split; [ reflexivity | ].
  revert y. induction l as [| z l IH]; intros y.
  - now left.
  - change (last (z :: l) y) with (match l with [] => z | _ :: _ => last l y end).
    destruct l as [| j l]; [ right; now left | ].
    destruct (IH y) as [H | H]; [ now left | right; now right ].
Qed.

Lemma node_ok_dict (n : json) : node_ok n = true -> exists d, n = JObj d.
Proof. destruct n; try discriminate. now exists d. Qed.

Lemma check_node_character_coverage_total (index : list json) (chars : dict) (w : world) :
  index <> [] ->
  forallb entry_ok index = true ->
  forallb (entry_snapshot_ok (disk w) (book_dir w)) index = true ->
  returns (_check_node_character_coverage index chars) w.
Proof.
  intros Hne Hentries Hsnaps.
  rewrite forallb_forall in Hentries, Hsnaps.
  destruct (py_last_in index Hne) as (e & Hlast & Hin).
  unfold _check_node_character_coverage, returns. rewrite Hlast, bind_lift_ok.
  pose proof (Hentries e Hin) as He. pose proof (Hsnaps e Hin) as Hs.
  destruct (entry_ok_dict e He) as (d & ->).
  cbn [entry_ok] in He. apply andb_true_iff in He. destruct He as [Hfile _].
  cbn [py_get entry_snapshot_ok] in *. rewrite bind_lift_ok.
  destruct (truthy (dict_get_or d "snapshot" (JStr ""))) eqn:Ts; cbn [negb];
    [ | returned ].
  destruct (str_or_false_truthy _ Hfile Ts) as (s & Hsd). rewrite Hsd in *.
  cbn [py_str]. rewrite bind_load_json. unfold decoded_ok in Hs.
  destruct (disk w (path_join (book_dir w) ("chapters/" ++ s))) as [[names | [v | err]] | ];
    try returned.
  destruct (negb (truthy v) || negb (is_dict v)) eqn:Hskip; [ returned | ].
  destruct v; cbn [is_dict negb] in Hskip; rewrite ?orb_true_r in Hskip; try discriminate.
  clear Hskip.
  cbn [snapshot_ok py_get] in *. rewrite bind_lift_ok.
  destruct (dict_get_or d0 "nodes" (JArr [])) as [ | | | | | nodes | ]; try discriminate.
  rewrite forallb_forall in Hs.
  cbn [py_iter py_len]. rewrite bind_lift_ok.
  match goal with
  | |- context [for_fold nodes ?loop ?start] =>
      destruct (for_fold_inv (fun missing w' => Forall is_str missing /\ w' = w) nodes loop)
        with (acc := start) (w := w) as (missing & w1 & E1 & Hmissing & ->);
        [ | split; [ constructor | reflexivity ] | ]
  end.
  - intros n missing w0 Hn (Hmissing & ->).
    pose proof (Hs n Hn) as Hnode.
    destruct (node_ok_dict n Hnode) as (nd & ->). cbn [node_ok py_get] in *.
    rewrite bind_lift_ok.
    destruct (truthy (dict_get_or nd "id" (JStr ""))) eqn:Tn.
    + destruct (str_or_false_truthy _ Hnode Tn) as (nid & ->).
      cbn [in_dict]. rewrite bind_lift_ok.
      do 2 eexists. split; [ reflexivity | ]. split; [ | reflexivity ].
      destruct (negb (dict_mem nid chars)); [ | exact Hmissing ].
      apply Forall_app. split; [ exact Hmissing | ].
      constructor; [ now exists nid | constructor ].
    + do 2 eexists. split; [ reflexivity | ]. now split.
  - unfold bind at 1. rewrite E1.
    destruct (nonempty missing).
    + destruct (py_join_strs ", " (firstn 10 missing) (Forall_firstn _ _ _ Hmissing))
        as (shown & ->).
      rewrite bind_lift_ok. returned.
    + rewrite bind_lift_ok. returned.
Qed.

Lemma check_no_empty_snapshots_total (index : list json) (w : world) :
  forallb entry_ok index = true ->
  forallb (entry_snapshot_ok (disk w) (book_dir w)) index = true ->
  returns (_check_no_empty_snapshots index) w.
Proof.
  intros Hentries Hsnaps.
  rewrite forallb_forall in Hentries, Hsnaps.
  unfold _check_no_empty_snapshots.
  apply returns_bind.
  - match goal with
    | |- returns (for_fold index ?loop ?start) w =>
        destruct (for_fold_inv
                    (fun _ w' => disk w' = disk w /\ book_dir w' = book_dir w) index loop)
          with (acc := start) (w := w) as (empty & w1 & E1 & _);
          [ | split; reflexivity | exact (returns_now _ _ _ _ E1) ]
    end.
    intros e empty w0 Hin (Hd & Hb).
    pose proof (Hentries e Hin) as He. pose proof (Hsnaps e Hin) as Hs.
    destruct (entry_ok_dict e He) as (d & ->).
    cbn [entry_ok] in He. apply andb_true_iff in He. destruct He as [Hfile _].
    cbn [py_get entry_snapshot_ok] in *. repeat run_step.
    destruct (truthy (dict_get_or d "snapshot" (JStr ""))) eqn:Ts; cbn [negb];
      [ | do 2 eexists; split; [ reflexivity | now split ] ].
    destruct (str_or_false_truthy _ Hfile Ts) as (s & Hsd). rewrite Hsd in *.
    cbn [py_str]. rewrite bind_load_json, Hd, Hb. unfold decoded_ok in Hs.
    destruct (disk w (path_join (book_dir w) ("chapters/" ++ s))) as [[names | [v | err]] | ];
      try (do 2 eexists; split; [ reflexivity | now split ]).
    destruct (truthy v && is_dict v) eqn:Hload;
      [ | do 2 eexists; split; [ reflexivity | now split ] ].
    destruct v; cbn [is_dict] in Hload; rewrite ?andb_false_r in Hload; try discriminate.
    cbn [snapshot_ok py_get] in *. rewrite bind_lift_ok.
    destruct (dict_get_or d0 "nodes" (JArr [])) as [ | | | | | nodes | ]; try discriminate.
    cbn [py_len]. rewrite bind_lift_ok.
    do 2 eexists; split; [ reflexivity | now split ].
  - intros empty w1 _. destruct (nonempty empty); returned.
Qed.

Lemma returns_skippable (b : bool) (m : M unit) (w : world) :
  (b = true -> returns m w) -> returns (if b then m else ret tt) w.
Proof. destruct b; intros H; [ now apply H | returned ]. Qed.

(** On a well-shaped package every check returns, and so does the run. *)
Lemma validate_returns (w : world) :
  well_shaped (disk w) (book_dir w) = true -> returns validate w.
Proof.
  intros Hws. unfold well_shaped in Hws. apply andb_true_iff in Hws.
  destruct Hws as [Hbook Hindex].
  unfold validate. unfold returns. rewrite bind_get_book_dir, bind_isdir.
  destruct (fs_isdir (disk w) (book_dir w)); cbn [negb]; [ | repeat run_step; returned ].
  apply returns_bind; [ now apply check_book_json_total | ].
  intros book_meta w1 E1.
  pose proof (reports_same_run _ _ _ _ reports_check_book_json E1) as S1.
  destruct S1 as (Hd1 & Hb1 & _).
  apply returns_bind.
  { apply check_chapters_index_total. now rewrite Hd1, Hb1. }
  intros chapter_index w2 E2.
  destruct (reports_same_run _ _ _ _ reports_check_chapters_index E2) as (Hd2 & Hb2 & _).
  assert (Hshape : available chapter_index = true ->
                   the chapter_index <> []
                   /\ forallb entry_ok (the chapter_index) = true
                   /\ forallb (entry_snapshot_ok (disk w) (book_dir w)) (the chapter_index) = true).
  { destruct chapter_index as [l | ]; [ | discriminate ]. cbn [the]. intros Hav.
    apply check_chapters_index_some in E2. rewrite Hd1, Hb1 in E2.
    unfold decoded_ok in Hindex. rewrite E2 in Hindex. cbn [index_ok] in Hindex.
    apply andb_true_iff in Hindex. destruct Hindex as [He Hs].
    repeat split; try assumption. intros ->. discriminate. }
  apply returns_bind.
  { apply returns_skippable. intros Hav. apply check_chapter_files_total. now apply Hshape. }
  intros [] w3 E3.
  destruct (reports_same_run _ _ _ _
              (reports_skippable _ _ (reports_check_chapter_files _)) E3) as (Hd3 & Hb3 & _).
  apply returns_bind.
  { apply returns_skippable. intros _. apply check_chapter_count_total. }
  intros [] w4 E4.
  destruct (reports_same_run _ _ _ _
              (reports_skippable _ _ (reports_check_chapter_count _ _)) E4) as (Hd4 & Hb4 & _).
  apply returns_bind; [ apply check_characters_index_total | ].
  intros char_index w5 E5.
  destruct (reports_same_run _ _ _ _ reports_check_characters_index E5) as (Hd5 & Hb5 & _).
  apply returns_bind.
  { apply returns_skippable. intros _. apply check_character_count_total. }
  intros [] w6 E6.
  destruct (reports_same_run _ _ _ _
              (reports_skippable _ _ (reports_check_character_count _ _)) E6) as (Hd6 & Hb6 & _).
  assert (Hdisk6 : disk w6 = disk w) by congruence.
  assert (Hdir6 : book_dir w6 = book_dir w) by congruence.
  apply returns_bind.
  { apply returns_skippable. intros Hav. apply andb_true_iff in Hav. destruct Hav as [Hav _].
    destruct (Hshape Hav) as (Hne & He & Hs).
    apply check_node_character_coverage_total; try assumption.
    now rewrite Hdisk6, Hdir6. }
  intros [] w7 E7.
  destruct (reports_same_run _ _ _ _
              (reports_skippable _ _ (reports_check_node_character_coverage _ _)) E7)
    as (Hd7 & Hb7 & _).
  apply returns_bind.
  { apply returns_skippable. intros Hav.
    destruct (Hshape Hav) as (Hne & He & Hs).
    apply check_no_empty_snapshots_total; try assumption.
    rewrite Hd7, Hb7, Hdisk6, Hdir6. exact Hs. }
  intros [] w8 _. unfold summary. returned.
Qed.


(** X2. A directory that is not there: one error, no warning, and the
    verdict false. *)
Theorem missing_directory_fails (fs : filesystem) (dir : string) (st : bool) :
  fs_isdir fs dir = false ->
  validate_run fs dir st = Ok (false, ["Directory does not exist: " ++ dir], []).
Proof.
  intros Hdir. unfold validate_run, validate.
  rewrite bind_get_book_dir, bind_isdir. cbn [new_validator disk book_dir].
  rewrite Hdir. reflexivity.
Qed.

(** X3. The lists belong to the validator object and [validate] does
    not clear them: called again on the same object it records the same
    findings once more, so each list comes back doubled, with the same
    verdict. *)
Theorem validate_again_appends (fs : filesystem) (dir : string) (st : bool)
    (passed : bool) (w' : world) :
  validate (new_validator fs dir st) = Ok (passed, w') ->
  validate w'
  = Ok (passed, mkWorld fs dir st (errors w' ++ errors w')%list (warnings w' ++ warnings w')%list).
Proof.
  intros Hrun.
  destruct (validate_findings (new_validator fs dir st)) as [r Hr].
  rewrite (Hr _ (same_run_refl _)) in Hrun.
  destruct r as [found | e]; [ | discriminate ].
  injection Hrun as <- <-.
  rewrite (Hr (record found (new_validator fs dir st)))
    by (apply same_run_record, same_run_refl).
  unfold record; cbn [new_validator disk book_dir strict errors warnings app].
  destruct (errors_of st found); reflexivity.
Qed.

(** ** Empty snapshots *)

(** The chapter of an index entry, as [entry.get("chapter", "?")] reads
    it. *)
Definition entry_chapter (e : json) : json :=
  match e with
  | JObj d => dict_get_or d "chapter" (JStr "?")
  | _ => JNull
  end.

(** The entry names a snapshot file that decodes to a dict which has
    some field and whose node list is empty. *)
Definition snapshot_is_empty (fs : filesystem) (dir : string) (e : json) : bool :=
  match e with
  | JObj d =>
      match dict_get_or d "snapshot" (JStr "") with
      | JStr s =>
          negb (String.eqb s "")
          && match fs (path_join dir ("chapters/" ++ s)) with
             | Some (RegularFile (Decoded (JObj snap))) =>
                 nonempty snap
                 && match dict_get_or snap "nodes" (JArr []) with
                    | JArr nodes => negb (nonempty nodes)
                    | _ => false
                    end
             | _ => false
             end
      | _ => false
      end
  | _ => false
  end.

Definition empty_snapshot_warning (empty : list json) : string :=
  str_of_nat (List.length empty) ++ " snapshot(s) have 0 nodes: chapters "
  ++ py_repr (JArr (firstn 10 empty)).

Lemma record_errors_app (msgs1 msgs2 : list string) (w : world) :
  record (map FError msgs2) (record (map FError msgs1) w)
  = record (map FError (msgs1 ++ msgs2)) w.
Proof. now rewrite map_app, record_app. Qed.

Lemma add_error_record (msg : string) (w : world) : add_error msg w = record (map FError [msg]) w.
Proof. unfold add_error, record; simpl. now rewrite !app_nil_r. Qed.

Lemma empty_snapshots_loop (index : list json) (w : world) (empty : list json) :
  forallb entry_ok index = true ->
  forallb (entry_snapshot_ok (disk w) (book_dir w)) index = true ->
  exists msgs,
    for_fold index
      (fun empty entry =>
         snap_file <- lift (py_get entry "snapshot" (JStr "")) ;;
         ch <- lift (py_get entry "chapter" (JStr "?")) ;;
         if negb (truthy snap_file) then ret empty
         else
           snap <- load_json ("chapters/" ++ py_str snap_file) ;;
           if truthy snap && is_dict snap then
             nodes <- lift (py_get snap "nodes" (JArr [])) ;;
             n <- lift (py_len nodes) ;;
             ret (if Nat.eqb n 0 then (empty ++ [ch])%list else empty)
           else ret empty)
      empty w
    = Ok ((empty ++ map entry_chapter (filter (snapshot_is_empty (disk w) (book_dir w)) index))%list,
          record (map FError msgs) w).
Proof.
  revert w empty. induction index as [| e index IH]; intros w empty Hentries Hsnaps.
  - exists []. simpl. now rewrite app_nil_r, record_nil.
  - cbn [forallb] in Hentries, Hsnaps.
    apply andb_true_iff in Hentries. destruct Hentries as [He Hentries].
    apply andb_true_iff in Hsnaps. destruct Hsnaps as [Hs Hsnaps].
    assert (Hstep : exists msgs1,
               (fun entry =>
                  snap_file <- lift (py_get entry "snapshot" (JStr "")) ;;
                  ch <- lift (py_get entry "chapter" (JStr "?")) ;;
                  if negb (truthy snap_file) then ret empty
                  else
                    snap <- load_json ("chapters/" ++ py_str snap_file) ;;
                    if truthy snap && is_dict snap then
                      nodes <- lift (py_get snap "nodes" (JArr [])) ;;
                      n <- lift (py_len nodes) ;;
                      ret (if Nat.eqb n 0 then (empty ++ [ch])%list else empty)
                    else ret empty) e w
               = Ok ((empty ++ (if snapshot_is_empty (disk w) (book_dir w) e
                                then [entry_chapter e] else []))%list,
                     record (map FError msgs1) w)).
    { destruct (entry_ok_dict e He) as (d & ->).
      cbn [entry_ok] in He. apply andb_true_iff in He. destruct He as [Hfile _].
      cbn beta. cbn [py_get entry_snapshot_ok snapshot_is_empty entry_chapter] in *.
      repeat run_step.
      destruct (dict_get_or d "snapshot" (JStr "")) as [ | | | | s | | ] eqn:Hsd;
        cbn [str_or_false] in Hfile; apply negb_true_iff in Hfile || clear Hfile.
      all: try (rewrite Hfile; cbn [negb]; exists []; unfold ret;
                now rewrite app_nil_r, record_nil).
      cbn [truthy py_str].
      destruct (String.eqb s "") eqn:Hs0; cbn [negb andb].
      { exists []. unfold ret. now rewrite app_nil_r, record_nil. }
      rewrite bind_load_json. unfold decoded_ok in Hs.
      destruct (disk w (path_join (book_dir w) ("chapters/" ++ s)))
        as [[names | [v | err]] | ]; cbn [truthy andb].
      - exists []. unfold ret. now rewrite app_nil_r, record_nil.
      - destruct v; cbn [truthy is_dict]; rewrite ?andb_false_r;
          try (exists []; unfold ret; now rewrite app_nil_r, record_nil).
        cbn [snapshot_ok] in Hs. rewrite andb_true_r.
        destruct d0 as [| x d0]; cbn [nonempty andb].
        + exists []. unfold ret. now rewrite app_nil_r, record_nil.
        + cbn [py_get]. rewrite bind_lift_ok.
          destruct (dict_get_or (x :: d0) "nodes" (JArr [])) as [ | | | | | nodes | ];
            try discriminate.
          cbn [py_len]. rewrite bind_lift_ok.
          exists []. unfold ret. rewrite record_nil.
          destruct nodes; cbn [List.length Nat.eqb nonempty negb];
            now rewrite ?app_nil_r.
      - exists [("chapters/" ++ s) ++ ": invalid JSON " ++ em_dash ++ " " ++ err].
        unfold ret. now rewrite app_nil_r, add_error_record.
      - exists []. unfold ret. now rewrite app_nil_r, record_nil. }
    destruct Hstep as (msgs1 & Hstep).
    cbn [for_fold]. unfold bind at 1. rewrite Hstep.
    destruct (IH (record (map FError msgs1) w)
                (empty ++ (if snapshot_is_empty (disk w) (book_dir w) e
                           then [entry_chapter e] else []))%list Hentries Hsnaps)
      as (msgs2 & Hrest).
    exists (msgs1 ++ msgs2)%list. rewrite Hrest. cbn [record disk book_dir].
    rewrite record_errors_app. f_equal. f_equal.
    cbn [filter]. destruct (snapshot_is_empty (disk w) (book_dir w) e); cbn [map].
    + now rewrite <- app_assoc.
    + now rewrite app_nil_r.
Qed.


(** ** The chapter count *)

Definition chapter_count_mismatch (declared : string) (actual : nat) : string :=
  "book.json chapterCount=" ++ declared ++ " but chapters/index.json has "
  ++ str_of_nat actual ++ " entries".

Lemma check_chapter_count_default (meta : dict) (index : list json) (w : world) :
  dict_get "chapterCount" meta = None ->
  index <> [] ->
  _check_chapter_count meta index w
  = Ok (tt, add_error (chapter_count_mismatch "0" (List.length index)) w).
Proof.
  intros Hcc Hne. unfold _check_chapter_count, dict_get_or. rewrite Hcc.
  destruct index as [| x index]; [ congruence | ].
  reflexivity.
Qed.

Lemma missing_fields_none (required : list string) (meta : dict) :
  forallb (fun k => dict_mem k meta) required = true ->
  missing_fields required (JObj meta) = Ok [].
Proof.
  induction required as [| k required IH]; simpl; [ reflexivity | ].
  intros H. apply andb_true_iff in H. destruct H as [Hk Hr].
  now rewrite Hk, (IH Hr).
Qed.

Lemma check_book_json_returns (meta : dict) (w w1 : world) (r : option dict) :
  disk w (path_join (book_dir w) "book.json") = Some (RegularFile (Decoded (JObj meta))) ->
  forallb (fun k => dict_mem k meta) required_fields = true ->
  _check_book_json w = Ok (r, w1) ->
  r = Some meta.
Proof.
  intros Hbook Hreq. unfold _check_book_json, bind at 1.
  rewrite load_json_cases, Hbook.
  unfold bind at 1. unfold lift at 1. rewrite (missing_fields_none _ _ Hreq).
  cbn [nonempty].
  intros H.
  repeat (apply bind_ok in H; destruct H as (? & ? & _ & H)).
  now injection H as <- _.
Qed.

Lemma check_chapters_index_returns (index : list json) (w w1 : world) (r : option (list json)) :
  disk w (path_join (book_dir w) "chapters/index.json")
  = Some (RegularFile (Decoded (JArr index))) ->
  index <> [] ->
  _check_chapters_index w = Ok (r, w1) ->
  r = Some index.
Proof.
  intros Hidx Hne. unfold _check_chapters_index, bind at 1.
  rewrite load_json_cases, Hidx.
  destruct index as [| x index]; [ congruence | ].
  cbn [List.length Nat.eqb].
  intros H.
  repeat (apply bind_ok in H; destruct H as (? & ? & _ & H)).
  now injection H as <- _.
Qed.

Lemma dict_mem_nonempty (k : string) (d : dict) : dict_mem k d = true -> nonempty d = true.
Proof. destruct d; [ discriminate | reflexivity ]. Qed.



(** ** Node coverage *)

(** The [id] of a node that is a dict, as [node.get("id", "")] reads it. *)
Definition node_id (node : dict) : json := dict_get_or node "id" (JStr "").

(** The loop of the coverage check over nodes that are dicts whose ids,
    where they count as true, are strs: the ids that are no key of the
    registry, in order. *)
Lemma coverage_loop (chars : dict) (nodes : list dict) (ids : list string)
    (missing : list json) (w : world) :
  filter truthy (map node_id nodes) = map JStr ids ->
  for_fold (map JObj nodes)
    (fun missing node =>
       nid <- lift (py_get node "id" (JStr "")) ;;
       if truthy nid then
         b <- lift (in_dict nid chars) ;;
         ret (if negb b then (missing ++ [nid])%list else missing)
       else ret missing)
    missing w
  = Ok ((missing ++ map JStr (filter (fun s => negb (dict_mem s chars)) ids))%list, w).
Proof.
  revert ids missing. induction nodes as [| node nodes IH]; intros ids missing Hids.
  - destruct ids; [ | discriminate ]. simpl. now rewrite app_nil_r.
  - cbn [map for_fold]. unfold bind at 1 2. cbn [py_get lift].
    cbn [map filter] in Hids. fold (node_id node) in *.
    destruct (truthy (node_id node)) eqn:Ht.
    + destruct ids as [| s ids]; [ discriminate | ].
      cbn [map] in Hids. injection Hids as Hs Hids. rewrite Hs.
      unfold bind at 1. cbn [in_dict lift ret].
      rewrite (IH ids _ Hids). cbn [filter].
      destruct (dict_mem s chars); cbn [negb map].
      * reflexivity.
      * now rewrite <- app_assoc.
    + cbn [ret]. apply (IH ids missing Hids).
Qed.

Lemma py_last_app (l : list json) (x : json) : py_last (l ++ [x]) = Ok x.
Proof.
  destruct l as [| y l]; [ reflexivity | ].
  cbn [app py_last]. now rewrite last_last.
Qed.


(** The coverage check on the scenario of the two nodes: whatever the
    earlier entries of the index are, it reads the snapshot of the last
    one and warns of [zosima] alone. *)
Lemma coverage_warns_of_zosima (earlier : list json) (last_entry chars : dict) (w : world)
    (snap_file : string) (snap : dict) (nodes : list dict) :
  dict_get "snapshot" last_entry = Some (JStr snap_file) ->
  snap_file <> "" ->
  disk w (path_join (book_dir w) ("chapters/" ++ snap_file))
  = Some (RegularFile (Decoded (JObj snap))) ->
  dict_get "nodes" snap = Some (JArr (map JObj nodes)) ->
  filter truthy (map node_id nodes) = [JStr "alyosha"; JStr "zosima"] ->
  dict_mem "alyosha" chars = true ->
  dict_mem "zosima" chars = false ->
  _check_node_character_coverage (earlier ++ [JObj last_entry]) chars w
  = Ok (tt, add_warning "1 node ID(s) not in characters/index.json: zosima" w).
Proof.
  intros Hfile Hne Hdisk Hnodes Hids Ha Hz.
  assert (Ht : truthy (JStr snap_file) = true).
  { cbn [truthy]. apply negb_true_iff. now apply String.eqb_neq. }
  assert (Hsnap : truthy (JObj snap) = true).
  { destruct snap; [ discriminate | reflexivity ]. }
  unfold _check_node_character_coverage.
  rewrite py_last_app, bind_lift_ok.
  cbn [py_get]. unfold dict_get_or at 1. rewrite Hfile, bind_lift_ok, Ht. cbn [negb py_str].
  rewrite bind_load_json, Hdisk, Hsnap. cbn [negb orb is_dict py_get].
  unfold dict_get_or at 1. rewrite Hnodes, bind_lift_ok. cbn [py_iter]. rewrite bind_lift_ok.
  unfold bind at 1.
  rewrite (coverage_loop chars nodes ["alyosha"; "zosima"] [] w Hids).
  cbn [filter]. rewrite Ha, Hz. reflexivity.
Qed.

(** ** The two modes *)

(** Two worlds in the same place: same file system and directory. *)
Definition same_place (w0 w : world) : Prop :=
  disk w0 = disk w /\ book_dir w0 = book_dir w.

(** [m] records the same findings whatever the mode and the lists: only
    [warn] looks at [strict], and only to decide where its message goes. *)
Definition mode_blind {A} (m : M A) : Prop :=
  forall w, exists r, forall w0, same_place w0 w -> m w0 = replay r w0.

Lemma same_place_refl (w : world) : same_place w w.
Proof. now split. Qed.

Lemma same_place_record (fs : list finding) (w0 w : world) :
  same_place w0 w -> same_place (record fs w0) w.
Proof. intros (Hd & Hb). now split. Qed.

Lemma mode_blind_ret {A} (a : A) : mode_blind (ret a).
Proof.
  intros w. exists (Ok (a, [])). intros w0 _.
  unfold ret, replay. now rewrite record_nil.
Qed.

Lemma mode_blind_lift {A} (r : result A) : mode_blind (lift r).
Proof.
  intros w. destruct r as [a | e].
  - exists (Ok (a, [])). intros w0 _. simpl. now rewrite record_nil.
  - exists (Raise e). reflexivity.
Qed.

Lemma mode_blind_bind {A B} (m : M A) (k : A -> M B) :
  mode_blind m -> (forall a, mode_blind (k a)) -> mode_blind (bind m k).
Proof.
  intros Hm Hk w.
  destruct (Hm w) as [[[a fs1] | e] H1].
  - destruct (Hk a w) as [[[b fs2] | e] H2].
    + exists (Ok (b, (fs1 ++ fs2)%list)). intros w0 Hw.
      unfold bind. rewrite (H1 w0 Hw). simpl.
      rewrite (H2 _ (same_place_record fs1 _ _ Hw)). simpl.
      now rewrite record_app.
    + exists (Raise e). intros w0 Hw.
      unfold bind. rewrite (H1 w0 Hw). simpl.
      now rewrite (H2 _ (same_place_record fs1 _ _ Hw)).
  - exists (Raise e). intros w0 Hw.
    unfold bind. now rewrite (H1 w0 Hw).
Qed.

Lemma mode_blind_error (msg : string) : mode_blind (error msg).
Proof.
  intros w. exists (Ok (tt, [FError msg])). intros w0 _.
  unfold error. simpl. now rewrite add_error_record.
Qed.

Lemma mode_blind_warn (msg : string) : mode_blind (warn msg).
Proof.
  intros w. exists (Ok (tt, [FWarning msg])). intros w0 _.
  unfold warn, add_warning, replay, record; simpl.
  destruct (strict w0); now rewrite !app_nil_r.
Qed.

Lemma mode_blind_get_book_dir : mode_blind get_book_dir.
Proof.
  intros w. exists (Ok (book_dir w, [])). intros w0 (_ & Hb).
  unfold get_book_dir, replay. now rewrite record_nil, Hb.
Qed.

Lemma mode_blind_isfile (p : string) : mode_blind (isfile p).
Proof.
  intros w. exists (Ok (fs_isfile (disk w) p, [])). intros w0 (Hd & _).
  unfold isfile, replay. now rewrite record_nil, Hd.
Qed.

Lemma mode_blind_isdir (p : string) : mode_blind (isdir p).
Proof.
  intros w. exists (Ok (fs_isdir (disk w) p, [])). intros w0 (Hd & _).
  unfold isdir, replay. now rewrite record_nil, Hd.
Qed.

Lemma mode_blind_load_json (rel_path : string) : mode_blind (load_json rel_path).
Proof.
  intros w.
  destruct (disk w (path_join (book_dir w) rel_path)) as [[names | [v | e]] | ] eqn:E.
  1, 4: exists (Ok (JNull, [])); intros w0 (Hd & Hb);
        rewrite load_json_cases, Hd, Hb, E; simpl; now rewrite record_nil.
  - exists (Ok (v, [])). intros w0 (Hd & Hb).
    rewrite load_json_cases, Hd, Hb, E. simpl. now rewrite record_nil.
  - exists (Ok (JNull, [FError (rel_path ++ ": invalid JSON " ++ em_dash ++ " " ++ e)])).
    intros w0 (Hd & Hb).
    rewrite load_json_cases, Hd, Hb, E. simpl. now rewrite add_error_record.
Qed.

Lemma mode_blind_for_each {A} (l : list A) (body : A -> M unit) :
  (forall x, mode_blind (body x)) -> mode_blind (for_each l body).
Proof.
  intros Hb. induction l as [| x l IH]; simpl.
  - apply mode_blind_ret.
  - apply mode_blind_bind; auto.
Qed.

Lemma mode_blind_for_fold {A S} (l : list A) (body : S -> A -> M S) (acc : S) :
  (forall s x, mode_blind (body s x)) -> mode_blind (for_fold l body acc).
Proof.
  intros Hb. revert acc. induction l as [| x l IH]; intros acc; simpl.
  - apply mode_blind_ret.
  - apply mode_blind_bind; auto.
Qed.

Ltac mode_blind_step :=
  match goal with
  | |- mode_blind (bind _ _) => apply mode_blind_bind; [ | intro ]
  | |- mode_blind (ret _) => apply mode_blind_ret
  | |- mode_blind ok => apply mode_blind_ret
  | |- mode_blind (lift _) => apply mode_blind_lift
  | |- mode_blind (error _) => apply mode_blind_error
  | |- mode_blind (warn _) => apply mode_blind_warn
  | |- mode_blind get_book_dir => apply mode_blind_get_book_dir
  | |- mode_blind (isfile _) => apply mode_blind_isfile
  | |- mode_blind (isdir _) => apply mode_blind_isdir
  | |- mode_blind (load_json _) => apply mode_blind_load_json
  | |- mode_blind (for_each _ _) => apply mode_blind_for_each; intro
  | |- mode_blind (for_fold _ _ _) => apply mode_blind_for_fold; intros
  | |- mode_blind (if ?b then _ else _) => destruct b
  | |- mode_blind (match ?x with _ => _ end) => destruct x
  | |- mode_blind _ => progress cbv zeta
  end.

Lemma mode_blind_run_checks : mode_blind run_checks.
Proof.
  unfold run_checks, _check_book_json, _check_chapters_index, _check_chapter_files,
    _check_chapter_count, _check_characters_index, _check_character_count,
    _check_node_character_coverage, _check_no_empty_snapshots.
  repeat mode_blind_step.
Qed.

Lemma strict_errors_nonempty (found : list finding) :
  nonempty (errors_of true found)
  = nonempty (errors_of false found) || nonempty (warnings_of found).
Proof.
  induction found as [| [msg | msg] found IH]; simpl; try reflexivity.
  now rewrite orb_true_r.
Qed.

Lemma lenient_errors_in_strict (found : list finding) :
  incl (errors_of false found) (errors_of true found).
Proof.
  induction found as [| [msg | msg] found IH]; simpl.
  - apply incl_refl.
  - intros x [<- | Hx]; [ now left | right; now apply IH ].
  - now apply incl_tl.
Qed.

Lemma no_warnings_same_errors (found : list finding) :
  warnings_of found = [] -> errors_of true found = errors_of false found.
Proof.
  induction found as [| [msg | msg] found IH]; simpl; intros H.
  - reflexivity.
  - now rewrite IH.
  - discriminate.
Qed.

(** X7. The strict run of a package against the run that is not strict:
    it raises when and what the other raises; when they return, the
    warnings are the same list, every error and every warning of the
    other run is among its errors, its errors are the same list when
    there is no warning, and it passes exactly when the other passes
    without a warning. *)
Theorem strict_run_against_lenient (fs : filesystem) (dir : string) :
  match validate_run fs dir false with
  | Ok (passed, es, ws) =>
      exists es',
        validate_run fs dir true = Ok (passed && negb (nonempty ws), es', ws)
        /\ incl es es' /\ incl ws es' /\ (ws = [] -> es' = es)
  | Raise e => validate_run fs dir true = Raise e
  end.
Proof.
  destruct (mode_blind_run_checks (new_validator fs dir false)) as [r Hr].
  assert (Hrun : forall st,
             validate (new_validator fs dir st)
             = match r with
               | Ok (_, found) =>
                   Ok (negb (nonempty (errors_of st found)),
                       mkWorld fs dir st (errors_of st found) (warnings_of found))
               | Raise e => Raise e
               end).
  { intros st. rewrite validate_run_checks. unfold bind.
    rewrite (Hr (new_validator fs dir st)) by now split.
    destruct r as [[[] found] | e]; reflexivity. }
  unfold validate_run. rewrite !Hrun.
  destruct r as [[[] found] | e]; [ | reflexivity ].
  cbn [errors warnings].
  exists (errors_of true found). repeat split.
  - rewrite strict_errors_nonempty, negb_orb. reflexivity.
  - apply lenient_errors_in_strict.
  - apply warnings_in_errors.
  - apply no_warnings_same_errors.
Qed.

(** ** What can be raised *)

(** The two exceptions of a value of the wrong type. *)
Definition type_confusion (e : exn) : Prop := e = TypeError \/ e = AttributeError.

Definition confused {A} (r : result A) : Prop :=
  forall e, r = Raise e -> type_confusion e.

(** [m] raises nothing but what [P] allows. *)
Definition raises_only (P : exn -> Prop) {A} (m : M A) : Prop :=
  forall w e, m w = Raise e -> P e.

Create HintDb crash.

Lemma confused_ok {A} (a : A) : confused (Ok a).
Proof. intros e H. discriminate. Qed.

Lemma confused_str_in (k : string) (c : json) : confused (str_in k c).
Proof. intros e. destruct c; simpl; intros H; inversion H; now left. Qed.

Lemma confused_py_get (v : json) (k : string) (d : json) : confused (py_get v k d).
Proof. intros e. destruct v; simpl; intros H; inversion H; now right. Qed.

Lemma confused_os_path_join (a : string) (b : json) : confused (os_path_join a b).
Proof. intros e. destruct b; simpl; intros H; inversion H; now left. Qed.

Lemma confused_in_dict (x : json) (d : dict) : confused (in_dict x d).
Proof. intros e. destruct x; simpl; intros H; inversion H; now left. Qed.

Lemma confused_py_iter (v : json) : confused (py_iter v).
Proof. intros e. destruct v; simpl; intros H; inversion H; now left. Qed.

Lemma confused_py_len (v : json) : confused (py_len v).
Proof. intros e. destruct v; simpl; intros H; inversion H; now left. Qed.

Lemma confused_py_join (sep : string) (l : list json) : confused (py_join sep l).
Proof.
  intros e. unfold py_join.
  assert (H : confused (strs_of l)).
  { induction l as [| v l IH]; simpl; [ apply confused_ok | ].
    destruct v; try (intros e' H; inversion H; now left).
    destruct (strs_of l) as [ss | e0]; [ apply confused_ok | ].
    intros e' H. inversion H; subst. now apply IH. }
  destruct (strs_of l) as [ss | e0]; intros He; [ discriminate | ].
  inversion He; subst. now apply H.
Qed.

Lemma confused_missing_fields (required : list string) (meta : json) :
  confused (missing_fields required meta).
Proof.
  induction required as [| k required IH]; simpl; [ apply confused_ok | ].
  destruct (str_in k meta) as [b | e0] eqn:E.
  - destruct (missing_fields required meta) as [rest | e1]; [ apply confused_ok | ].
    intros e H. inversion H; subst. now apply IH.
  - intros e H. inversion H; subst. now apply (confused_str_in k meta).
Qed.

#[local] Hint Resolve confused_ok confused_str_in confused_py_get confused_os_path_join
  confused_in_dict confused_py_iter confused_py_len confused_py_join
  confused_missing_fields : crash.

Lemma raises_only_ret (P : exn -> Prop) {A} (a : A) : raises_only P (ret a).
Proof. intros w e H. discriminate. Qed.

Lemma raises_only_error (P : exn -> Prop) (msg : string) : raises_only P (error msg).
Proof. intros w e H. discriminate. Qed.

Lemma raises_only_warn (P : exn -> Prop) (msg : string) : raises_only P (warn msg).
Proof. intros w e H. discriminate. Qed.

Lemma raises_only_get_book_dir (P : exn -> Prop) : raises_only P get_book_dir.
Proof. intros w e H. discriminate. Qed.

Lemma raises_only_isfile (P : exn -> Prop) (p : string) : raises_only P (isfile p).
Proof. intros w e H. discriminate. Qed.

Lemma raises_only_isdir (P : exn -> Prop) (p : string) : raises_only P (isdir p).
Proof. intros w e H. discriminate. Qed.

(** The loader raises nothing: what [json.load] raises it catches, and
    it opens no file that is not there. *)
Lemma raises_only_load_json (P : exn -> Prop) (rel_path : string) :
  raises_only P (load_json rel_path).
Proof.
  intros w e. rewrite load_json_cases.
  destruct (disk w (path_join (book_dir w) rel_path)) as [[names | [v | e0]] | ];
    discriminate.
Qed.

Lemma raises_only_lift {A} (r : result A) :
  confused r -> raises_only type_confusion (lift r).
Proof.
  intros Hr w e. unfold lift. destruct r as [a | e0]; [ discriminate | ].
  intros H. inversion H; subst. now apply Hr.
Qed.

Lemma raises_only_bind (P : exn -> Prop) {A B} (m : M A) (k : A -> M B) :
  raises_only P m -> (forall a, raises_only P (k a)) -> raises_only P (bind m k).
Proof.
  intros Hm Hk w e. unfold bind.
  destruct (m w) as [[a w'] | e0] eqn:E.
  - apply Hk.
  - intros H. inversion H; subst. now apply (Hm w).
Qed.

Lemma raises_only_for_each (P : exn -> Prop) {A} (l : list A) (body : A -> M unit) :
  (forall x, raises_only P (body x)) -> raises_only P (for_each l body).
Proof.
  intros Hb. induction l as [| x l IH]; simpl.
  - apply raises_only_ret.
  - apply raises_only_bind; auto.
Qed.

Lemma raises_only_for_fold (P : exn -> Prop) {A S} (l : list A) (body : S -> A -> M S)
    (acc : S) :
  (forall s x, raises_only P (body s x)) -> raises_only P (for_fold l body acc).
Proof.
  intros Hb. revert acc. induction l as [| x l IH]; intros acc; simpl.
  - apply raises_only_ret.
  - apply raises_only_bind; auto.
Qed.

Ltac raises_step :=
  match goal with
  | |- raises_only _ (bind _ _) => apply raises_only_bind; [ | intro ]
  | |- raises_only _ (ret _) => apply raises_only_ret
  | |- raises_only _ ok => apply raises_only_ret
  | |- raises_only _ (lift _) => apply raises_only_lift; auto with crash
  | |- raises_only _ (error _) => apply raises_only_error
  | |- raises_only _ (warn _) => apply raises_only_warn
  | |- raises_only _ get_book_dir => apply raises_only_get_book_dir
  | |- raises_only _ (isfile _) => apply raises_only_isfile
  | |- raises_only _ (isdir _) => apply raises_only_isdir
  | |- raises_only _ (load_json _) => apply raises_only_load_json
  | |- raises_only _ (for_each _ _) => apply raises_only_for_each; intro
  | |- raises_only _ (for_fold _ _ _) => apply raises_only_for_fold; intros
  | |- raises_only _ (if ?b then _ else _) => destruct b
  | |- raises_only _ (match ?x with _ => _ end) => destruct x
  | |- raises_only _ _ => progress cbv zeta
  end.

Lemma chapters_index_raises : raises_only type_confusion _check_chapters_index.
Proof. unfold _check_chapters_index. repeat raises_step. Qed.

Lemma chapter_files_raises (index : list json) :
  raises_only type_confusion (_check_chapter_files index).
Proof. unfold _check_chapter_files. repeat raises_step. Qed.

Lemma chapter_count_raises (meta : dict) (index : list json) :
  raises_only type_confusion (_check_chapter_count meta index).
Proof. unfold _check_chapter_count. repeat raises_step. Qed.

Lemma characters_index_raises : raises_only type_confusion _check_characters_index.
Proof. unfold _check_characters_index. repeat raises_step. Qed.

Lemma character_count_raises (meta chars : dict) :
  raises_only type_confusion (_check_character_count meta chars).
Proof. unfold _check_character_count. repeat raises_step. Qed.

Lemma no_empty_snapshots_raises (index : list json) :
  raises_only type_confusion (_check_no_empty_snapshots index).
Proof. unfold _check_no_empty_snapshots. repeat raises_step. Qed.

Lemma node_character_coverage_raises (index : list json) (chars : dict) :
  index <> [] ->
  raises_only type_confusion (_check_node_character_coverage index chars).
Proof.
  intros Hne. destruct (py_last_in index Hne) as (x & Hlast & _).
  unfold _check_node_character_coverage. rewrite Hlast.
  repeat raises_step.
Qed.

Lemma book_json_raises : raises_only type_confusion _check_book_json.
Proof.
  intros w e. unfold _check_book_json. rewrite bind_load_json.
  destruct (disk w (path_join (book_dir w) "book.json")) as [[names | [v | e0]] | ];
    try (repeat run_step; discriminate).
  destruct v; try (repeat run_step; discriminate).
  1-5: destruct (missing_fields required_fields _) as [missing | e1] eqn:Em;
       [ rewrite bind_lift_ok; destruct (nonempty missing);
         [ repeat run_step; discriminate
         | cbn [py_get lift]; unfold bind; intros H; inversion H; now right ]
       | unfold bind, lift; intros H; inversion H; subst;
         eapply confused_missing_fields; eassumption ].
  rewrite missing_fields_dict, bind_lift_ok.
  destruct (filter (fun k => negb (dict_mem k d)) required_fields) as [| k0 ks] eqn:Hmiss;
    cbn [nonempty]; [ | repeat run_step; discriminate ].
  assert (Hall : forall k, In k required_fields -> dict_mem k d = true).
  { intros k Hk. destruct (dict_mem k d) eqn:Hm; [ reflexivity | ].
    assert (Hin : In k (filter (fun k => negb (dict_mem k d)) required_fields)).
    { apply filter_In. split; [ exact Hk | now rewrite Hm ]. }
    rewrite Hmiss in Hin. contradiction. }
  destruct (dict_mem_get "title" d) as (title & Htitle); [ apply Hall; simpl; tauto | ].
  destruct (dict_mem_get "author" d) as (author & Hauthor); [ apply Hall; simpl; tauto | ].
  cbn [py_getitem]. rewrite Htitle, Hauthor.
  revert w e.
  match goal with
  | |- forall w e, ?m w = Raise e -> _ => change (raises_only type_confusion m)
  end.
  repeat raises_step.
Qed.

Lemma skippable_raises (P : exn -> Prop) (b : bool) (m : M unit) :
  (b = true -> raises_only P m) -> raises_only P (if b then m else ret tt).
Proof. destruct b; intros H; [ now apply H | apply raises_only_ret ]. Qed.

Lemma run_checks_raises : raises_only type_confusion run_checks.
Proof.
  unfold run_checks.
  apply raises_only_bind; [ apply raises_only_get_book_dir | intros dir ].
  apply raises_only_bind; [ apply raises_only_isdir | intros d ].
  destruct (negb d); [ apply raises_only_error | ].
  apply raises_only_bind; [ apply book_json_raises | intros book_meta ].
  apply raises_only_bind; [ apply chapters_index_raises | intros chapter_index ].
  apply raises_only_bind;
    [ apply skippable_raises; intros _; apply chapter_files_raises | intros _ ].
  apply raises_only_bind;
    [ apply skippable_raises; intros _; apply chapter_count_raises | intros _ ].
  apply raises_only_bind; [ apply characters_index_raises | intros char_index ].
  apply raises_only_bind;
    [ apply skippable_raises; intros _; apply character_count_raises | intros _ ].
  apply raises_only_bind; [ | intros _ ].
  - apply skippable_raises. intros Hav. apply andb_true_iff in Hav. destruct Hav as [Hav _].
    apply node_character_coverage_raises.
    destruct chapter_index as [[| x l] | ]; discriminate.
  - apply skippable_raises. intros _. apply no_empty_snapshots_raises.
Qed.


(** ** Packages that pass *)

(** A file name as the checks treat it: a value that counts as false
    is not looked up, a str has to name a file under [base]. *)
Definition named_file_exists (fs : filesystem) (base : string) (v : json) : bool :=
  match v with
  | JStr s => String.eqb s "" || fs_isfile fs (path_join base s)
  | _ => negb (truthy v)
  end.

(** book.json has the required fields, the version 1.0 and a cover
    that exists when one is named. *)
Definition book_valid (fs : filesystem) (dir : string) (meta : dict) : bool :=
  forallb (fun k => dict_mem k meta) required_fields
  && eq_str (dict_get_or meta "schemaVersion" JNull) "1.0"
  && named_file_exists fs dir (dict_get_or meta "coverImage" JNull).

(** An index entry has its three fields and its two files. *)
Definition entry_valid (fs : filesystem) (dir : string) (e : json) : bool :=
  match e with
  | JObj d =>
      forallb (fun k => dict_mem k d) entry_fields
      && named_file_exists fs (path_join dir "chapters") (dict_get_or d "snapshot" (JStr ""))
      && named_file_exists fs (path_join dir "chapters") (dict_get_or d "delta" (JStr ""))
  | _ => false
  end.

(** What the loader finds for the snapshot an entry names decodes, and
    when it is a dict with some field, [nodes_ok] holds of its node
    list. *)
Definition snapshot_nodes (fs : filesystem) (dir : string) (nodes_ok : list json -> bool)
    (e : json) : bool :=
  match e with
  | JObj d =>
      match dict_get_or d "snapshot" (JStr "") with
      | JStr s =>
          String.eqb s ""
          || match fs (path_join dir ("chapters/" ++ s)) with
             | Some (RegularFile (Decoded (JObj snap))) =>
                 negb (nonempty snap)
                 || match dict_get_or snap "nodes" (JArr []) with
                    | JArr nodes => nodes_ok nodes
                    | _ => false
                    end
             | Some (RegularFile (Undecodable _)) => false
             | _ => true
             end
      | v => negb (truthy v)
      end
  | _ => false
  end.

(** A node is a dict whose id, when it has one, is a key of the
    registry. *)
Definition node_covered (chars : dict) (n : json) : bool :=
  match n with
  | JObj nd =>
      match dict_get_or nd "id" (JStr "") with
      | JStr i => String.eqb i "" || dict_mem i chars
      | v => negb (truthy v)
      end
  | _ => false
  end.

(** The package keeps every invariant the checks look for: it is a
    directory with a valid book.json, a non-empty index of valid
    entries whose number is the chapterCount, a registry that is a dict
    and, unless empty, has characterCount keys and covers the nodes of
    the last snapshot, and no snapshot without nodes. *)
Definition valid_package (fs : filesystem) (dir : string) : bool :=
  fs_isdir fs dir
  && match fs (path_join dir "book.json"),
           fs (path_join dir "chapters/index.json"),
           fs (path_join dir "characters/index.json") with
     | Some (RegularFile (Decoded (JObj meta))),
       Some (RegularFile (Decoded (JArr index))),
       Some (RegularFile (Decoded (JObj chars))) =>
         book_valid fs dir meta
         && nonempty index
         && forallb (entry_valid fs dir) index
         && eq_int (dict_get_or meta "chapterCount" (JInt 0)) (Z.of_nat (List.length index))
         && (negb (nonempty chars)
             || eq_int (dict_get_or meta "characterCount" (JInt 0)) (Z.of_nat (dict_len chars))
                && snapshot_nodes fs dir (forallb (node_covered chars)) (last index JNull))
         && forallb (snapshot_nodes fs dir nonempty) index
     | _, _, _ => false
     end.

Lemma named_file_cases (fs : filesystem) (base : string) (v : json) :
  named_file_exists fs base v = true ->
  truthy v = false
  \/ exists s, v = JStr s /\ fs_isfile fs (path_join base s) = true.
Proof.
  destruct v; simpl; intros H; try (left; now apply negb_true_iff).
  destruct (String.eqb s "") eqn:Hs; simpl in H.
  - left. reflexivity.
  - right. now exists s.
Qed.

Lemma valid_book_passes (meta : dict) (w : world) :
  disk w (path_join (book_dir w) "book.json") = Some (RegularFile (Decoded (JObj meta))) ->
  book_valid (disk w) (book_dir w) meta = true ->
  _check_book_json w = Ok (Some meta, w).
Proof.
  intros Hfile Hvalid. unfold book_valid in Hvalid.
  apply andb_true_iff in Hvalid. destruct Hvalid as [Hvalid Hcover].
  apply andb_true_iff in Hvalid. destruct Hvalid as [Hreq Hversion].
  unfold _check_book_json. rewrite bind_load_json, Hfile.
  rewrite (missing_fields_none _ _ Hreq), bind_lift_ok. cbn [nonempty py_get].
  rewrite bind_lift_ok, Hversion. cbn [negb]. rewrite bind_ret, bind_lift_ok.
  assert (Htitle : exists v, dict_get "title" meta = Some v).
  { apply dict_mem_get. simpl in Hreq. repeat (apply andb_true_iff in Hreq as [? Hreq]).
    assumption. }
  assert (Hauthor : exists v, dict_get "author" meta = Some v).
  { apply dict_mem_get. simpl in Hreq. repeat (apply andb_true_iff in Hreq as [? Hreq]).
    assumption. }
  destruct Htitle as (title & Htitle). destruct Hauthor as (author & Hauthor).
  cbn [py_getitem]. rewrite Htitle, Hauthor.
  destruct (named_file_cases _ _ _ Hcover) as [Hfalse | (s & Hs & Hexists)].
  - rewrite Hfalse. repeat run_step. reflexivity.
  - rewrite Hs. cbn [truthy os_path_join].
    destruct (negb (String.eqb s "")); repeat run_step; try reflexivity.
    rewrite Hexists. cbn [negb]. repeat run_step. reflexivity.
Qed.

Lemma entry_valid_dict (fs : filesystem) (dir : string) (e : json) :
  entry_valid fs dir e = true ->
  exists d,
    e = JObj d
    /\ forallb (fun k => dict_mem k d) entry_fields = true
    /\ named_file_exists fs (path_join dir "chapters") (dict_get_or d "snapshot" (JStr "")) = true
    /\ named_file_exists fs (path_join dir "chapters") (dict_get_or d "delta" (JStr "")) = true.
Proof.
  destruct e; try discriminate. cbn [entry_valid]. intros H.
  apply andb_true_iff in H. destruct H as [H Hdelta].
  apply andb_true_iff in H. destruct H as [Hfields Hsnap].
  now exists d.
Qed.

Lemma valid_index_passes (index : list json) (w : world) :
  disk w (path_join (book_dir w) "chapters/index.json")
  = Some (RegularFile (Decoded (JArr index))) ->
  nonempty index = true ->
  forallb (entry_valid (disk w) (book_dir w)) index = true ->
  _check_chapters_index w = Ok (Some index, w).
Proof.
  intros Hfile Hne Hentries. rewrite forallb_forall in Hentries.
  unfold _check_chapters_index. rewrite bind_load_json, Hfile.
  destruct index as [| x index]; [ discriminate | ].
  cbn [List.length Nat.eqb].
  match goal with
  | |- bind (for_each ?l ?body) _ _ = _ =>
      destruct (for_each_inv (fun w' => w' = w) l body) with (w := w) as (w1 & E1 & ->);
        [ | reflexivity | ]
  end.
  - intros [i e] w0 Hin ->. cbn [fst snd].
    destruct (entry_valid_dict _ _ e (Hentries e (in_enumerate_from _ _ _ _ Hin)))
      as (d & -> & Hfields & _).
    rewrite forallb_forall in Hfields.
    apply for_each_inv; [ | reflexivity ].
    intros field w1 Hfield ->. cbn [str_in]. rewrite bind_lift_ok, (Hfields field Hfield).
    now exists w.
  - unfold bind at 1. rewrite E1. repeat run_step. reflexivity.
Qed.

Lemma valid_files_pass (index : list json) (w : world) :
  forallb (entry_valid (disk w) (book_dir w)) index = true ->
  _check_chapter_files index w = Ok (tt, w).
Proof.
  intros Hentries. rewrite forallb_forall in Hentries.
  unfold _check_chapter_files. rewrite bind_get_book_dir. cbv zeta.
  match goal with
  | |- bind (for_fold index ?loop ?start) _ _ = _ =>
      destruct (for_fold_inv (fun acc w' => acc = ([], []) /\ w' = w) index loop)
        with (acc := start) (w := w) as (found & w1 & E1 & -> & ->);
        [ | now split | ]
  end.
  - intros e acc w0 Hin (-> & ->).
    destruct (entry_valid_dict _ _ e (Hentries e Hin)) as (d & -> & _ & Hsnap & Hdelta).
    cbn [py_get fst snd]. repeat run_step.
    destruct (named_file_cases _ _ _ Hsnap) as [Hs | (s & Hs & Hsfile)];
      destruct (named_file_cases _ _ _ Hdelta) as [Hd | (s' & Hd & Hdfile)];
      rewrite ?Hs, ?Hd; cbn [os_path_join];
      repeat first [ run_step | rewrite Hsfile | rewrite Hdfile
                   | match goal with
                     | |- context [if truthy (JStr ?x) then _ else _] =>
                         destruct (truthy (JStr x))
                     end ];
      cbn [negb]; do 2 eexists; split; try reflexivity; now split.
  - unfold bind at 1. rewrite E1. cbn [fst snd nonempty]. unfold ok.
    repeat run_step. reflexivity.
Qed.

Lemma valid_snapshots_pass (index : list json) (w : world) :
  forallb (snapshot_nodes (disk w) (book_dir w) nonempty) index = true ->
  _check_no_empty_snapshots index w = Ok (tt, w).
Proof.
  intros Hsnaps. rewrite forallb_forall in Hsnaps.
  unfold _check_no_empty_snapshots.
  match goal with
  | |- bind (for_fold index ?loop ?start) _ _ = _ =>
      destruct (for_fold_inv (fun acc w' => acc = [] /\ w' = w) index loop)
        with (acc := start) (w := w) as (empty & w1 & E1 & -> & ->);
        [ | now split | ]
  end.
  - intros e acc w0 Hin (-> & ->).
    pose proof (Hsnaps e Hin) as He.
    destruct e; try discriminate. cbn [snapshot_nodes py_get] in *. repeat run_step.
    destruct (dict_get_or d "snapshot" (JStr "")) as [ | | | | s | | ];
      try (rewrite (proj1 (negb_true_iff _) He); cbn [negb];
           do 2 eexists; split; [ reflexivity | now split ]).
    cbn [truthy py_str].
    destruct (String.eqb s ""); cbn [negb orb] in *;
      [ do 2 eexists; split; [ reflexivity | now split ] | ].
    rewrite bind_load_json.
    destruct (disk w (path_join (book_dir w) ("chapters/" ++ s)))
      as [[names | [v | err]] | ]; try discriminate;
      try (do 2 eexists; split; [ reflexivity | now split ]).
    destruct v; cbn [is_dict]; rewrite ?andb_false_r;
      try (do 2 eexists; split; [ reflexivity | now split ]).
    destruct d0 as [| x d0]; cbn [truthy andb nonempty negb orb] in *;
      [ do 2 eexists; split; [ reflexivity | now split ] | ].
    cbn [py_get]. rewrite bind_lift_ok.
    destruct (dict_get_or (x :: d0) "nodes" (JArr [])) as [ | | | | | nodes | ];
      try discriminate.
    destruct nodes as [| n nodes]; [ discriminate | ].
    cbn [py_len]. rewrite bind_lift_ok.
    do 2 eexists; split; [ reflexivity | now split ].
  - unfold bind at 1. rewrite E1. reflexivity.
Qed.

Lemma last_cons (x d : json) (l : list json) : last (x :: l) d = last l x.
Proof.
  revert x d. induction l as [| y l IH]; intros x d; [ reflexivity | ].
  change (last (x :: y :: l) d) with (last (y :: l) d). now rewrite !IH.
Qed.

Lemma valid_coverage_passes (index : list json) (chars : dict) (w : world) :
  nonempty index = true ->
  snapshot_nodes (disk w) (book_dir w) (forallb (node_covered chars)) (last index JNull) = true ->
  _check_node_character_coverage index chars w = Ok (tt, w).
Proof.
  intros Hne Hlast. destruct index as [| x index]; [ discriminate | ].
  rewrite last_cons in Hlast.
  unfold _check_node_character_coverage. cbn [py_last]. rewrite bind_lift_ok.
  destruct (last index x); try discriminate. cbn [snapshot_nodes py_get] in *.
  rewrite bind_lift_ok.
  destruct (dict_get_or d "snapshot" (JStr "")) as [ | | | | s | | ];
    try (rewrite (proj1 (negb_true_iff _) Hlast); reflexivity).
  cbn [truthy py_str].
  destruct (String.eqb s ""); cbn [negb orb] in *; [ reflexivity | ].
  rewrite bind_load_json.
  destruct (disk w (path_join (book_dir w) ("chapters/" ++ s)))
    as [[names | [v | err]] | ]; try discriminate; try reflexivity.
  destruct v; cbn [is_dict negb]; rewrite ?orb_true_r; try reflexivity.
  destruct d0 as [| f d0]; cbn [truthy negb orb nonempty] in *; [ reflexivity | ].
  cbn [py_get]. rewrite bind_lift_ok.
  destruct (dict_get_or (f :: d0) "nodes" (JArr [])) as [ | | | | | nodes | ];
    try discriminate.
  cbn [py_iter py_len]. rewrite bind_lift_ok.
  rewrite forallb_forall in Hlast.
  match goal with
  | |- bind (for_fold nodes ?loop ?start) _ _ = _ =>
      destruct (for_fold_inv (fun acc w' => acc = [] /\ w' = w) nodes loop)
        with (acc := start) (w := w) as (missing & w1 & E1 & -> & ->);
        [ | now split | ]
  end.
  - intros n acc w0 Hin (-> & ->).
    pose proof (Hlast n Hin) as Hn.
    destruct n; try discriminate. cbn [node_covered py_get] in *. rewrite bind_lift_ok.
    destruct (dict_get_or d1 "id" (JStr "")) as [ | | | | i | | ];
      try (rewrite (proj1 (negb_true_iff _) Hn);
           do 2 eexists; split; [ reflexivity | now split ]).
    cbn [truthy].
    destruct (String.eqb i ""); cbn [negb orb] in *;
      [ do 2 eexists; split; [ reflexivity | now split ] | ].
    cbn [in_dict]. rewrite bind_lift_ok, Hn.
    do 2 eexists; split; [ reflexivity | now split ].
  - unfold bind at 1. rewrite E1. cbn [nonempty]. rewrite bind_lift_ok. reflexivity.
Qed.

Lemma bind_returns {A B} (m : M A) (k : A -> M B) (w w' : world) (a : A) :
  m w = Ok (a, w') -> bind m k w = k a w'.
Proof. intros H. unfold bind. now rewrite H. Qed.

Lemma matching_chapter_count_passes (meta : dict) (index : list json) (w : world) :
  eq_int (dict_get_or meta "chapterCount" (JInt 0)) (Z.of_nat (List.length index)) = true ->
  _check_chapter_count meta index w = Ok (tt, w).
Proof. intros H. unfold _check_chapter_count. cbv zeta. now rewrite H. Qed.

Lemma matching_character_count_passes (meta chars : dict) (w : world) :
  eq_int (dict_get_or meta "characterCount" (JInt 0)) (Z.of_nat (dict_len chars)) = true ->
  _check_character_count meta chars w = Ok (tt, w).
Proof. intros H. unfold _check_character_count. cbv zeta. now rewrite H. Qed.

Lemma registry_loaded (chars : dict) (w : world) :
  disk w (path_join (book_dir w) "characters/index.json")
  = Some (RegularFile (Decoded (JObj chars))) ->
  _check_characters_index w = Ok (Some chars, w).
Proof.
  intros H. unfold _check_characters_index. rewrite bind_load_json, H. reflexivity.
Qed.

(** X5. A valid package passes in either mode with nothing on either
    list. *)
Theorem valid_package_passes (fs : filesystem) (dir : string) (st : bool) :
  valid_package fs dir = true ->
  validate_run fs dir st = Ok (true, [], []).
Proof.
  unfold valid_package. intros H. apply andb_true_iff in H. destruct H as [Hdir H].
  destruct (fs (path_join dir "book.json")) as [[? | [[ | | | | | | meta] | ?]] | ] eqn:Hbook;
    try discriminate.
  destruct (fs (path_join dir "chapters/index.json"))
    as [[? | [[ | | | | | index | ] | ?]] | ] eqn:Hindex; try discriminate.
  destruct (fs (path_join dir "characters/index.json"))
    as [[? | [[ | | | | | | chars] | ?]] | ] eqn:Hchars; try discriminate.
  apply andb_true_iff in H. destruct H as [H Hsnaps].
  apply andb_true_iff in H. destruct H as [H Hreg].
  apply andb_true_iff in H. destruct H as [H Hcount].
  apply andb_true_iff in H. destruct H as [H Hentries].
  apply andb_true_iff in H. destruct H as [Hmeta Hne].
  assert (Hav : available (@Some dict meta) = true).
  { pose proof Hmeta as Hid. unfold book_valid in Hid.
    apply andb_true_iff in Hid. destruct Hid as [Hid _].
    apply andb_true_iff in Hid. destruct Hid as [Hid _].
    apply (dict_mem_nonempty "id"). simpl in Hid.
    apply andb_true_iff in Hid. tauto. }
  assert (Havi : available (Some index) = true) by exact Hne.
  set (w := new_validator fs dir st).
  assert (Hrun : validate w = Ok (true, w)).
  { unfold validate.
    rewrite bind_get_book_dir, bind_isdir. cbn [w new_validator disk book_dir].
    rewrite Hdir. cbn [negb]. fold w.
    rewrite (bind_returns _ _ _ _ _ (valid_book_passes meta w Hbook Hmeta)).
    rewrite (bind_returns _ _ _ _ _ (valid_index_passes index w Hindex Hne Hentries)).
    rewrite Hav, Havi. cbn [andb the].
    rewrite (bind_returns _ _ _ _ _ (valid_files_pass index w Hentries)).
    rewrite (bind_returns _ _ _ _ _ (matching_chapter_count_passes meta index w Hcount)).
    rewrite (bind_returns _ _ _ _ _ (registry_loaded chars w Hchars)).
    change (available (Some chars)) with (nonempty chars).
    destruct (nonempty chars); cbn [negb orb andb the] in *.
    - apply andb_true_iff in Hreg. destruct Hreg as [Hcharacters Hcover].
      rewrite (bind_returns _ _ _ _ _ (matching_character_count_passes meta chars w Hcharacters)).
      rewrite (bind_returns _ _ _ _ _ (valid_coverage_passes index chars w Hne Hcover)).
      rewrite (bind_returns _ _ _ _ _ (valid_snapshots_pass index w Hsnaps)).
      reflexivity.
    - rewrite !bind_ret.
      rewrite (bind_returns _ _ _ _ _ (valid_snapshots_pass index w Hsnaps)).
      reflexivity. }
  unfold validate_run. fold w. rewrite Hrun. reflexivity.
Qed.

(** ** Counts that differ *)

Lemma check_chapter_count_differs (meta : dict) (index : list json) (w : world) :
  eq_int (dict_get_or meta "chapterCount" (JInt 0)) (Z.of_nat (List.length index)) = false ->
  _check_chapter_count meta index w
  = Ok (tt, add_error (chapter_count_mismatch
                         (py_str (dict_get_or meta "chapterCount" (JInt 0)))
                         (List.length index)) w).
Proof. intros H. unfold _check_chapter_count. cbv zeta. now rewrite H. Qed.


(** ** Chapter files *)

(** The entry names, under [field], a str that is no file of the
    chapters directory. *)
Definition names_missing_file (fs : filesystem) (chapters_dir field : string) (e : json) : bool :=
  match e with
  | JObj d =>
      match dict_get_or d field (JStr "") with
      | JStr s => negb (String.eqb s "") && negb (fs_isfile fs (path_join chapters_dir s))
      | _ => false
      end
  | _ => false
  end.

(** The pair [(ch, name)] the check keeps for such an entry. *)
Definition file_ref (field : string) (e : json) : json * json :=
  match e with
  | JObj d => (dict_get_or d "chapter" (JStr "?"), dict_get_or d field (JStr ""))
  | _ => (JNull, JNull)
  end.

Definition missing_refs (fs : filesystem) (chapters_dir field : string) (index : list json)
  : list (json * json) :=
  map (file_ref field) (filter (names_missing_file fs chapters_dir field) index).

(** The error for the missing files of one kind, if any. *)
Definition missing_files_error (kind : string) (missing : list (json * json)) : list string :=
  if nonempty missing then
    [str_of_nat (List.length missing) ++ " " ++ kind ++ " file(s) missing: "
     ++ show_missing missing ++ ellipsis_after 5 missing]
  else [].

Lemma chapter_files_loop (index : list json) (w : world) (acc : list (json * json) * list (json * json)) :
  forallb entry_ok index = true ->
  for_fold index
    (fun acc entry =>
       snap <- lift (py_get entry "snapshot" (JStr "")) ;;
       delta <- lift (py_get entry "delta" (JStr "")) ;;
       ch <- lift (py_get entry "chapter" (JStr "?")) ;;
       missing_snapshots <-
         (if truthy snap then
            p <- lift (os_path_join (path_join (book_dir w) "chapters") snap) ;;
            f <- isfile p ;;
            ret (if negb f then (fst acc ++ [(ch, snap)])%list else fst acc)
          else ret (fst acc)) ;;
       missing_deltas <-
         (if truthy delta then
            p <- lift (os_path_join (path_join (book_dir w) "chapters") delta) ;;
            f <- isfile p ;;
            ret (if negb f then (snd acc ++ [(ch, delta)])%list else snd acc)
          else ret (snd acc)) ;;
       ret (missing_snapshots, missing_deltas))
    acc w
  = Ok ((fst acc ++ missing_refs (disk w) (path_join (book_dir w) "chapters") "snapshot" index,
         snd acc ++ missing_refs (disk w) (path_join (book_dir w) "chapters") "delta" index)%list,
        w).
Proof.
  revert acc. induction index as [| e index IH]; intros [ms md] Hentries.
  - unfold missing_refs. simpl. now rewrite !app_nil_r.
  - cbn [forallb] in Hentries. apply andb_true_iff in Hentries.
    destruct Hentries as [He Hentries].
    destruct (entry_ok_dict e He) as (d & ->).
    cbn [entry_ok] in He. apply andb_true_iff in He. destruct He as [Hsnap Hdelta].
    cbn [for_fold py_get fst snd]. repeat run_step.
    assert (Hstep : forall field (l : list (json * json)) (k : list (json * json) -> M (list (json * json) * list (json * json))),
               str_or_false (dict_get_or d field (JStr "")) = true ->
               bind (if truthy (dict_get_or d field (JStr "")) then
                       p <- lift (os_path_join (path_join (book_dir w) "chapters")
                                    (dict_get_or d field (JStr ""))) ;;
                       f <- isfile p ;;
                       ret (if negb f
                            then (l ++ [(dict_get_or d "chapter" (JStr "?"),
                                         dict_get_or d field (JStr ""))])%list
                            else l)
                     else ret l) k w
               = k (l ++ missing_refs (disk w) (path_join (book_dir w) "chapters") field [JObj d])%list w).
    { intros field l k Hf. unfold missing_refs. cbn [filter names_missing_file].
      destruct (truthy (dict_get_or d field (JStr ""))) eqn:Ht.
      - destruct (str_or_false_truthy _ Hf Ht) as (s & Hs). rewrite Hs in *.
        cbn [truthy] in Ht. rewrite Ht. cbn [os_path_join andb]. repeat run_step.
        destruct (negb (fs_isfile (disk w) (path_join (path_join (book_dir w) "chapters") s)));
          cbn [map file_ref]; rewrite ?Hs, ?app_nil_r; reflexivity.
      - rewrite bind_ret.
        destruct (dict_get_or d field (JStr "")) as [ | | | | s | | ];
          cbn [map]; rewrite ?app_nil_r; try reflexivity.
        cbn [truthy] in Ht. apply negb_false_iff in Ht. rewrite Ht.
        cbn [negb andb map]. now rewrite app_nil_r. }
    rewrite (Hstep "snapshot" ms _ Hsnap). cbv beta. rewrite bind_assoc.
    rewrite (Hstep "delta" md _ Hdelta). cbv beta.
    rewrite bind_ret. rewrite (IH _ Hentries). cbn [fst snd].
    unfold missing_refs. cbn [filter].
    destruct (names_missing_file _ _ "snapshot" (JObj d));
      destruct (names_missing_file _ _ "delta" (JObj d));
      cbn [map app]; rewrite <- ?app_assoc, ?app_nil_r; reflexivity.
Qed.

(** X10. The file check on an index of well-shaped entries records at
    most two errors, however many files are missing: one for the
    snapshots an entry names that are no file of the chapters directory,
    one for the deltas, each with the number of missing files, the
    first five as [ch<chapter>:<name>] and an ellipsis exactly when
    there are more than five.  A name that is empty is not looked up. *)
Theorem chapter_files_reported (index : list json) (w : world) :
  forallb entry_ok index = true ->
  _check_chapter_files index w
  = Ok (tt,
        record
          (map FError
             (missing_files_error "snapshot"
                (missing_refs (disk w) (path_join (book_dir w) "chapters") "snapshot" index)
              ++ missing_files_error "delta"
                   (missing_refs (disk w) (path_join (book_dir w) "chapters") "delta" index)))
          w).
Proof.
  intros Hentries. unfold _check_chapter_files.
  rewrite bind_get_book_dir. cbv zeta.
  rewrite (bind_returns _ _ _ _ _ (chapter_files_loop index w ([], []) Hentries)).
  cbn [fst snd app]. unfold missing_files_error.
  destruct (nonempty (missing_refs (disk w) (path_join (book_dir w) "chapters") "snapshot" index));
    destruct (nonempty (missing_refs (disk w) (path_join (book_dir w) "chapters") "delta" index));
    unfold ok; repeat run_step; unfold error, ret;
    rewrite ?add_error_record, ?record_errors_app, ?record_nil; reflexivity.
Qed.


(** ** Node coverage in general *)

(** The ids of the nodes that have one, in order. *)
Definition truthy_ids (nodes : list dict) : list string :=
  flat_map (fun nd =>
              match node_id nd with
              | JStr i => if String.eqb i "" then [] else [i]
              | _ => []
              end) nodes.

Lemma truthy_ids_filter (nodes : list dict) :
  forallb (fun nd => str_or_false (node_id nd)) nodes = true ->
  filter truthy (map node_id nodes) = map JStr (truthy_ids nodes).
Proof.
  induction nodes as [| nd nodes IH]; intros H; [ reflexivity | ].
  cbn [forallb] in H. apply andb_true_iff in H. destruct H as [Hnd H].
  cbn [map filter truthy_ids flat_map]. fold (truthy_ids nodes).
  rewrite map_app, <- (IH H).
  destruct (node_id nd) as [ | | | | i | | ]; cbn [str_or_false] in Hnd;
    try (rewrite (proj1 (negb_true_iff _) Hnd); reflexivity).
  cbn [truthy]. destruct (String.eqb i ""); reflexivity.
Qed.

Lemma py_join_map (sep : string) (l : list string) :
  py_join sep (map JStr l) = Ok (String.concat sep l).
Proof.
  unfold py_join.
  assert (H : strs_of (map JStr l) = Ok l).
  { induction l as [| s l IH]; simpl; [ reflexivity | now rewrite IH ]. }
  now rewrite H.
Qed.

Definition uncovered_warning (uncovered : list string) : string :=
  str_of_nat (List.length uncovered) ++ " node ID(s) not in characters/index.json: "
  ++ String.concat ", " (firstn 10 uncovered)
  ++ (if Nat.ltb 10 (List.length uncovered) then "..." else "").

(** X11. The coverage check, when the snapshot of the last entry is a
    dict whose nodes are dicts with str ids: the ids it finds wanting
    are the ids of the nodes that have one and are no key of the
    registry, in order; with none it records nothing, otherwise one
    warning with their number, the first ten joined by commas and an
    ellipsis exactly when there are more than ten.  The entries before
    the last play no part. *)
Theorem coverage_reported (earlier : list json) (last_entry chars : dict) (w : world)
    (snap_file : string) (snap : dict) (nodes : list dict) :
  dict_get_or last_entry "snapshot" (JStr "") = JStr snap_file ->
  snap_file <> "" ->
  disk w (path_join (book_dir w) ("chapters/" ++ snap_file))
  = Some (RegularFile (Decoded (JObj snap))) ->
  snap <> [] ->
  dict_get_or snap "nodes" (JArr []) = JArr (map JObj nodes) ->
  forallb (fun nd => str_or_false (node_id nd)) nodes = true ->
  _check_node_character_coverage (earlier ++ [JObj last_entry]) chars w
  = Ok (tt,
        let uncovered := filter (fun i => negb (dict_mem i chars)) (truthy_ids nodes) in
        if nonempty uncovered then add_warning (uncovered_warning uncovered) w else w).
Proof.
  intros Hfile Hne Hdisk Hsnap Hnodes Hids.
  assert (Ht : truthy (JStr snap_file) = true).
  { cbn [truthy]. apply negb_true_iff. now apply String.eqb_neq. }
  assert (Hdict : truthy (JObj snap) = true).
  { destruct snap; [ congruence | reflexivity ]. }
  unfold _check_node_character_coverage.
  rewrite py_last_app, bind_lift_ok.
  cbn [py_get]. rewrite Hfile, bind_lift_ok, Ht. cbn [negb py_str].
  rewrite bind_load_json, Hdisk, Hdict. cbn [negb orb is_dict py_get].
  rewrite Hnodes, bind_lift_ok. cbn [py_iter py_len]. rewrite bind_lift_ok.
  rewrite (bind_returns _ _ _ _ _
             (coverage_loop chars nodes (truthy_ids nodes) [] w (truthy_ids_filter nodes Hids))).
  cbn [app]. cbv zeta.
  destruct (filter (fun i => negb (dict_mem i chars)) (truthy_ids nodes)) as [| i rest] eqn:Hu.
  - cbn [map nonempty]. rewrite bind_lift_ok. reflexivity.
  - cbn [nonempty]. change (JStr i :: map JStr rest) with (map JStr (i :: rest)).
    rewrite firstn_map, py_join_map.
    change (nonempty (map JStr (i :: rest))) with true. cbv iota. rewrite bind_lift_ok.
    unfold uncovered_warning, ellipsis_after. rewrite !length_map. reflexivity.
Qed.

(** ** Fields of the index entries *)

(** The errors for the fields entry [i] lacks, in the order of the
    fields. *)
Definition field_errors (i : nat) (d : dict) : list string :=
  map (fun field =>
         "chapters/index.json[" ++ str_of_nat i ++ "] missing '" ++ field ++ "'")
    (filter (fun field => negb (dict_mem field d)) entry_fields).

Lemma entry_fields_loop (i : nat) (d : dict) (fields : list string) (w : world) :
  for_each fields
    (fun field =>
       b <- lift (str_in field (JObj d)) ;;
       if negb b then
         error ("chapters/index.json[" ++ str_of_nat i ++ "] missing '" ++ field ++ "'")
       else ret tt) w
  = Ok (tt,
        record
          (map FError
             (map (fun field =>
                     "chapters/index.json[" ++ str_of_nat i ++ "] missing '" ++ field ++ "'")
                (filter (fun field => negb (dict_mem field d)) fields))) w).
Proof.
  revert w. induction fields as [| field fields IH]; intros w.
  - simpl. now rewrite record_nil.
  - cbn [for_each str_in filter]. rewrite bind_assoc, bind_lift_ok.
    destruct (negb (dict_mem field d)).
    + rewrite bind_error, IH, add_error_record, record_errors_app. reflexivity.
    + rewrite bind_ret, IH. reflexivity.
Qed.

Lemma entries_loop (ds : list dict) (i : nat) (w : world) :
  for_each (enumerate_from i (map JObj ds))
    (fun ie =>
       for_each entry_fields
         (fun field =>
            b <- lift (str_in field (snd ie)) ;;
            if negb b then
              error ("chapters/index.json[" ++ str_of_nat (fst ie) ++ "] missing '"
                     ++ field ++ "'")
            else ret tt)) w
  = Ok (tt,
        record
          (map FError
             (flat_map (fun p => field_errors (fst p) (snd p)) (enumerate_from i ds))) w).
Proof.
  revert i w. induction ds as [| d ds IH]; intros i w.
  - simpl. now rewrite record_nil.
  - cbn [map enumerate_from for_each flat_map fst snd].
    rewrite (bind_returns _ _ _ _ _ (entry_fields_loop i d entry_fields w)).
    rewrite IH. unfold field_errors. now rewrite record_errors_app.
Qed.

(** X12. The index check on a non-empty index whose entries are dicts:
    it records one error for every field among [chapter], [snapshot],
    [delta] that an entry lacks, with the position of the entry, in the
    order of the entries and of the fields, and it still returns the
    index. *)
Theorem index_fields_reported (ds : list dict) (w : world) :
  disk w (path_join (book_dir w) "chapters/index.json")
  = Some (RegularFile (Decoded (JArr (map JObj ds)))) ->
  ds <> [] ->
  _check_chapters_index w
  = Ok (Some (map JObj ds),
        record (map FError (flat_map (fun p => field_errors (fst p) (snd p)) (enumerate ds))) w).
Proof.
  intros Hfile Hne. unfold _check_chapters_index.
  rewrite bind_load_json, Hfile.
  destruct ds as [| d ds]; [ congruence | ].
  cbn [map List.length Nat.eqb]. unfold enumerate.
  change (JObj d :: map JObj ds) with (map JObj (d :: ds)).
  rewrite (bind_returns _ _ _ _ _ (entries_loop (d :: ds) 0 w)).
  reflexivity.
Qed.

(** ** What the three loading checks return *)

Lemma grows_by_one (l : list string) (x : string) : exists e es, (l ++ [x])%list = (l ++ e :: es)%list.
Proof. now exists x, []. Qed.

Lemma grows_by_two (l : list string) (x y : string) :
  exists e es, ((l ++ [x]) ++ [y])%list = (l ++ e :: es)%list.
Proof. exists x, [y]. now rewrite <- app_assoc. Qed.

Lemma book_json_none (w w' : world) :
  _check_book_json w = Ok (None, w') ->
  exists e es, errors w' = (errors w ++ e :: es)%list.
Proof.
  unfold _check_book_json. rewrite bind_load_json.
  destruct (disk w (path_join (book_dir w) "book.json")) as [[names | [v | e0]] | ].
  1, 4: rewrite bind_error; intros H; injection H as <-; apply grows_by_one.
  2: { rewrite !bind_error. intros H. injection H as <-. apply grows_by_two. }
  destruct v; try (rewrite bind_error; intros H; injection H as <-; apply grows_by_one).
  all: destruct (missing_fields required_fields _) as [missing | e1];
    [ rewrite bind_lift_ok | unfold bind, lift; discriminate ].
  all: destruct (nonempty missing);
    [ rewrite bind_error; intros H; injection H as <-; apply grows_by_one | ].
  all: intros H; repeat (apply bind_ok in H; destruct H as (? & ? & _ & H)); discriminate.
Qed.

Lemma filter_none_forallb {A} (f : A -> bool) (l : list A) :
  filter (fun x => negb (f x)) l = [] -> forallb f l = true.
Proof.
  induction l as [| x l IH]; simpl; [ reflexivity | ].
  destruct (f x); simpl; [ exact IH | discriminate ].
Qed.

Lemma book_json_some (w w' : world) (meta : dict) :
  _check_book_json w = Ok (Some meta, w') ->
  disk w (path_join (book_dir w) "book.json") = Some (RegularFile (Decoded (JObj meta)))
  /\ forallb (fun k => dict_mem k meta) required_fields = true.
Proof.
  unfold _check_book_json. rewrite bind_load_json.
  destruct (disk w (path_join (book_dir w) "book.json")) as [[names | [v | e0]] | ];
    try (repeat run_step; discriminate).
  destruct v; try (repeat run_step; discriminate).
  all: try solve
    [ destruct (missing_fields required_fields _) as [missing | e1];
      [ rewrite bind_lift_ok | unfold bind, lift; discriminate ];
      (destruct (nonempty missing); [ repeat run_step; discriminate | ]);
      intros H; repeat (apply bind_ok in H; destruct H as (? & ? & _ & H)); discriminate ].
  rewrite missing_fields_dict, bind_lift_ok.
  destruct (filter (fun k => negb (dict_mem k d)) required_fields) eqn:Hmiss;
    cbn [nonempty]; [ | repeat run_step; discriminate ].
  intros H. repeat (apply bind_ok in H; destruct H as (? & ? & _ & H)).
  injection H as <- _. split; [ reflexivity | ].
  now apply filter_none_forallb.
Qed.

Lemma chapters_index_none (w w' : world) :
  _check_chapters_index w = Ok (None, w') ->
  exists e es, errors w' = (errors w ++ e :: es)%list.
Proof.
  unfold _check_chapters_index. rewrite bind_load_json.
  destruct (disk w (path_join (book_dir w) "chapters/index.json")) as [[names | [v | e0]] | ].
  1, 4: rewrite bind_error; intros H; injection H as <-; apply grows_by_one.
  2: { rewrite !bind_error. intros H. injection H as <-. apply grows_by_two. }
  destruct v; try (rewrite bind_error; intros H; injection H as <-; apply grows_by_one).
  destruct (Nat.eqb (List.length l) 0);
    [ rewrite bind_error; intros H; injection H as <-; apply grows_by_one | ].
  intros H. repeat (apply bind_ok in H; destruct H as (? & ? & _ & H)). discriminate.
Qed.

Lemma characters_index_none (w w' : world) :
  _check_characters_index w = Ok (None, w') ->
  exists m ms, warnings w' = (warnings w ++ m :: ms)%list.
Proof.
  unfold _check_characters_index. rewrite bind_load_json.
  destruct (disk w (path_join (book_dir w) "characters/index.json")) as [[names | [v | e0]] | ].
  1, 4: rewrite bind_warn; intros H; injection H as <-; apply grows_by_one.
  2: { rewrite bind_warn. intros H. injection H as <-. apply grows_by_one. }
  destruct v; try (rewrite bind_warn; intros H; injection H as <-; apply grows_by_one).
  unfold ok. rewrite bind_ret. discriminate.
Qed.

Lemma characters_index_some (w w' : world) (chars : dict) :
  _check_characters_index w = Ok (Some chars, w') ->
  disk w (path_join (book_dir w) "characters/index.json")
  = Some (RegularFile (Decoded (JObj chars))).
Proof.
  unfold _check_characters_index. rewrite bind_load_json.
  destruct (disk w (path_join (book_dir w) "characters/index.json")) as [[names | [v | e0]] | ];
    try (repeat run_step; discriminate).
  destruct v; try (repeat run_step; discriminate).
  unfold ok. rewrite bind_ret. intros H. injection H as <- _. reflexivity.
Qed.

(** X13. None of the three loading checks gives up silently: when the
    book.json check or the index check returns no data it has added at
    least one error, and when the registry check returns no registry it
    has added at least one warning.  So a check that [validate] skips
    for want of data is always accounted for on the lists. *)
Theorem unavailable_data_is_reported (w w' : world) :
  (_check_book_json w = Ok (None, w') ->
   exists e es, errors w' = (errors w ++ e :: es)%list)
  /\ (_check_chapters_index w = Ok (None, w') ->
      exists e es, errors w' = (errors w ++ e :: es)%list)
  /\ (_check_characters_index w = Ok (None, w') ->
      exists m ms, warnings w' = (warnings w ++ m :: ms)%list).
Proof.
  split; [ apply book_json_none | split ].
  - apply chapters_index_none.
  - apply characters_index_none.
Qed.

(** X14. What the three loading checks hand on is what the file holds:
    metadata is the dict book.json decodes to and has the four required
    fields; an index is the array chapters/index.json decodes to and is
    not empty; a registry is the dict characters/index.json decodes
    to. *)
Theorem returned_data_is_on_disk (w w' : world) :
  (forall meta,
      _check_book_json w = Ok (Some meta, w') ->
      disk w (path_join (book_dir w) "book.json") = Some (RegularFile (Decoded (JObj meta)))
      /\ forallb (fun k => dict_mem k meta) required_fields = true)
  /\ (forall index,
         _check_chapters_index w = Ok (Some index, w') ->
         disk w (path_join (book_dir w) "chapters/index.json")
         = Some (RegularFile (Decoded (JArr index)))
         /\ index <> [])
  /\ (forall chars,
         _check_characters_index w = Ok (Some chars, w') ->
         disk w (path_join (book_dir w) "characters/index.json")
         = Some (RegularFile (Decoded (JObj chars)))).
Proof.
  split; [ | split ].
  - intros meta. apply book_json_some.
  - intros index H. split; [ now apply check_chapters_index_some in H | ].
    intros ->. revert H. unfold _check_chapters_index. rewrite bind_load_json.
    destruct (disk w (path_join (book_dir w) "chapters/index.json"))
      as [[names | [v | e0]] | ]; try (repeat run_step; discriminate).
    destruct v; try (repeat run_step; discriminate).
    destruct l as [| x l]; [ cbn [List.length Nat.eqb]; repeat run_step; discriminate | ].
    cbn [List.length Nat.eqb].
    intros H. repeat (apply bind_ok in H; destruct H as (? & ? & _ & H)). discriminate.
  - intros chars. apply characters_index_some.
Qed.


(** ** Character counts that differ *)

Definition character_count_mismatch (declared : string) (actual : nat) : string :=
  "book.json characterCount=" ++ declared ++ " but characters/index.json has "
  ++ str_of_nat actual ++ " entries".

Lemma check_character_count_differs (meta chars : dict) (w : world) :
  eq_int (dict_get_or meta "characterCount" (JInt 0)) (Z.of_nat (dict_len chars)) = false ->
  _check_character_count meta chars w
  = Ok (tt, add_warning (character_count_mismatch
                           (py_str (dict_get_or meta "characterCount" (JInt 0)))
                           (dict_len chars)) w).
Proof. intros H. unfold _check_character_count. cbv zeta. now rewrite H. Qed.

(** X16. A book.json with the four required fields whose characterCount
    (0 when left out) is not equal to the number of entries of a
    registry that is a dict with an entry: every run that returns has
    the mismatch on its warning list, and when strict it has failed with
    the mismatch on its error list as well. *)
Theorem character_count_mismatch_warns (w : world) (meta chars : dict) :
  fs_isdir (disk w) (book_dir w) = true ->
  disk w (path_join (book_dir w) "book.json") = Some (RegularFile (Decoded (JObj meta))) ->
  forallb (fun k => dict_mem k meta) required_fields = true ->
  disk w (path_join (book_dir w) "characters/index.json")
  = Some (RegularFile (Decoded (JObj chars))) ->
  chars <> [] ->
  eq_int (dict_get_or meta "characterCount" (JInt 0)) (Z.of_nat (dict_len chars)) = false ->
  forall passed w',
    validate w = Ok (passed, w') ->
    In (character_count_mismatch (py_str (dict_get_or meta "characterCount" (JInt 0)))
          (dict_len chars)) (warnings w')
    /\ (strict w = true ->
        passed = false
        /\ In (character_count_mismatch (py_str (dict_get_or meta "characterCount" (JInt 0)))
                 (dict_len chars)) (errors w')).
Proof.
  intros Hdir Hbook Hreq Hchars Hne Hcount passed w' Hrun.
  rewrite validate_run_checks in Hrun.
  apply bind_ok in Hrun. destruct Hrun as ([] & wf & Hrun & Hsum).
  unfold summary in Hsum. injection Hsum as <- <-.
  unfold run_checks in Hrun.
  rewrite bind_get_book_dir, bind_isdir, Hdir in Hrun. cbv beta iota delta [negb] in Hrun.
  apply bind_ok in Hrun. destruct Hrun as (book_meta & w1 & E1 & Hrun).
  pose proof (check_book_json_returns meta w w1 book_meta Hbook Hreq E1) as ->.
  pose proof (reports_same_run _ _ _ _ reports_check_book_json E1) as S1.
  apply bind_ok in Hrun. destruct Hrun as (chapter_index & w2 & E2 & Hrun).
  pose proof (reports_same_run _ _ _ _ reports_check_chapters_index E2) as S2.
  apply bind_ok in Hrun. destruct Hrun as ([] & w3 & E3 & Hrun).
  pose proof (reports_same_run _ _ _ _
                (reports_skippable _ _ (reports_check_chapter_files _)) E3) as S3.
  apply bind_ok in Hrun. destruct Hrun as ([] & w4 & E4 & Hrun).
  pose proof (reports_same_run _ _ _ _
                (reports_skippable _ _ (reports_check_chapter_count _ _)) E4) as S4.
  assert (S : same_run w4 w).
  { eapply same_run_trans; [ exact S4 | ].
    eapply same_run_trans; [ exact S3 | ].
    eapply same_run_trans; [ exact S2 | exact S1 ]. }
  destruct S as (Hd & Hb & Hs).
  rewrite <- Hd, <- Hb in Hchars.
  unfold bind at 1 in Hrun. rewrite (registry_loaded chars w4 Hchars) in Hrun.
  assert (Hav : available (@Some dict meta) && available (@Some dict chars) = true).
  { apply andb_true_iff. split.
    - apply (dict_mem_nonempty "id"). simpl in Hreq.
      apply andb_true_iff in Hreq. tauto.
    - destruct chars; [ congruence | reflexivity ]. }
  rewrite Hav in Hrun. cbn [the] in Hrun.
  unfold bind at 1 in Hrun. rewrite check_character_count_differs in Hrun by assumption.
  match type of Hrun with
  | ?rest _ = _ => assert (Hrest : reports rest)
  end.
  { pose proof reports_check_node_character_coverage.
    pose proof reports_check_no_empty_snapshots.
    reports_auto; auto. }
  destruct (reports_grows _ _ _ _ Hrest Hrun) as (es & ws & He & Hw).
  split.
  - rewrite Hw. cbn [add_warning warnings]. apply in_or_app. left. apply in_or_app. right. now left.
  - intros Hstrict. rewrite <- Hs in Hstrict.
    assert (Hin : In (character_count_mismatch
                        (py_str (dict_get_or meta "characterCount" (JInt 0)))
                        (dict_len chars)) (errors wf)).
    { rewrite He. cbn [add_warning errors]. rewrite Hstrict.
      apply in_or_app. left. apply in_or_app. right. now left. }
    split; [ | exact Hin ].
    destruct (errors wf); [ contradiction | reflexivity ].
Qed.

(** ** The file the file check tests and the file the loader reads *)

Lemma append_assoc (a b c : string) : (a ++ b) ++ c = a ++ b ++ c.
Proof. induction a as [| x a IH]; simpl; [ reflexivity | now rewrite IH ]. Qed.

Lemma length_append (a b : string) : String.length (a ++ b) = String.length a + String.length b.
Proof. induction a as [| x a IH]; simpl; [ reflexivity | now rewrite IH ]. Qed.

Lemma ends_with_sep_append (a b : string) :
  b <> "" -> ends_with_sep (a ++ b) = ends_with_sep b.
Proof.
  intros Hb. induction a as [| x a IH]; [ reflexivity | ].
  change (String x a ++ b) with (String x (a ++ b)).
  destruct (a ++ b) as [| y r] eqn:E.
  - destruct a; [ simpl in E; congruence | discriminate ].
  - rewrite <- IH. reflexivity.
Qed.

Lemma eqb_append_nonempty (a b : string) : b <> "" -> String.eqb (a ++ b) "" = false.
Proof. intros Hb. destruct a; [ destruct b; [ congruence | reflexivity ] | reflexivity ]. Qed.

(** The chapters directory of the file check, and a file [s] under it
    as the loader is asked for it. *)
Lemma chapters_dir_cases (dir : string) :
  exists prefix,
    path_join dir "chapters" = prefix ++ "chapters"
    /\ forall s, starts_with_sep s = false ->
                 path_join dir ("chapters/" ++ s) = prefix ++ "chapters/" ++ s.
Proof.
  unfold path_join. cbn [starts_with_sep append Ascii.eqb Bool.eqb].
  destruct (String.eqb dir "" || ends_with_sep dir).
  - exists dir. split; [ reflexivity | intros s _; reflexivity ].
  - exists (dir ++ "/"). split; [ now rewrite append_assoc | ].
    intros s _. now rewrite append_assoc.
Qed.

(** X17. The file check tests the snapshot an entry names as
    [os.path.join(chapters_dir, name)], the checks that read it load
    [chapters/<name>] under the book directory.  For a name that does
    not start with a slash the two are one path: the loader returns what
    the file tested holds, records the error of a file that is no JSON,
    and returns None without a word for what is no file.  For a name
    that starts with a slash they differ: the file check tests the name
    itself, the loader a path under the book directory. *)
Theorem loader_reads_checked_file (w : world) (s : string) :
  (starts_with_sep s = false ->
   load_json ("chapters/" ++ s) w
   = match disk w (path_join (path_join (book_dir w) "chapters") s) with
     | Some (RegularFile (Decoded v)) => Ok (v, w)
     | Some (RegularFile (Undecodable e)) =>
         Ok (JNull,
             add_error (("chapters/" ++ s) ++ ": invalid JSON " ++ em_dash ++ " " ++ e) w)
     | _ => Ok (JNull, w)
     end)
  /\ (starts_with_sep s = true ->
      path_join (path_join (book_dir w) "chapters") s = s
      /\ path_join (book_dir w) ("chapters/" ++ s) <> s).
Proof.
  destruct (chapters_dir_cases (book_dir w)) as (prefix & Hdir & Hfile).
  split.
  - intros Hrel. rewrite load_json_cases, (Hfile s Hrel), Hdir.
    unfold path_join at 1. rewrite Hrel.
    rewrite eqb_append_nonempty, ends_with_sep_append by discriminate.
    cbn [ends_with_sep orb Ascii.eqb Bool.eqb].
    now rewrite append_assoc.
  - intros Habs. split.
    + unfold path_join at 1. now rewrite Habs.
    + intros Heq. apply (f_equal String.length) in Heq.
      unfold path_join in Heq. cbn [starts_with_sep append Ascii.eqb Bool.eqb] in Heq.
      destruct (String.eqb (book_dir w) "" || ends_with_sep (book_dir w));
        rewrite ?length_append in Heq; simpl in Heq; rewrite ?length_append in Heq;
        simpl in Heq; lia.
Qed.

End Validator.

(** ** Packages *)

(** A file system given by the list of its paths. *)
Definition fs_of (files : list (string * node)) : filesystem :=
  fun p =>
    match find (fun e => String.eqb (fst e) p) files with
    | Some e => Some (snd e)
    | None => None
    end.

Definition file (v : json) : node := RegularFile (Decoded v).

(** The packages below hold no float, so the runs on them never ask for
    the text of one. *)
Definition no_float : float -> string := fun _ => "".

Definition entry (ch : Z) (snapshot delta : string) : json :=
  JObj [("chapter", JInt ch); ("snapshot", JStr snapshot); ("delta", JStr delta)].

(** A book with one chapter whose snapshot has the nodes [alyosha] and
    [zosima], and a registry that knows [alyosha]. *)
Definition karamazov : filesystem :=
  fs_of
    [("/books/karamazov", Directory ["book.json"; "chapters"; "characters"]);
     ("/books/karamazov/book.json",
      file (JObj [("id", JStr "karamazov"); ("title", JStr "The Brothers Karamazov");
                  ("author", JStr "Fyodor Dostoevsky"); ("schemaVersion", JStr "1.0");
                  ("chapterCount", JInt 1); ("characterCount", JInt 1)]));
     ("/books/karamazov/chapters", Directory ["index.json"; "ch1.json"; "d1.json"]);
     ("/books/karamazov/chapters/index.json", file (JArr [entry 1 "ch1.json" "d1.json"]));
     ("/books/karamazov/chapters/ch1.json",
      file (JObj [("nodes", JArr [JObj [("id", JStr "alyosha")];
                                  JObj [("label", JStr "a monastery")];
                                  JObj [("id", JStr "zosima")]])]));
     ("/books/karamazov/chapters/d1.json", file (JObj []));
     ("/books/karamazov/characters", Directory ["index.json"]);
     ("/books/karamazov/characters/index.json",
      file (JObj [("alyosha", JObj [("name", JStr "Alexei Fyodorovich Karamazov")])]))].

(** The minimal package: one chapter, its two files, no registry. *)
Definition minimal_book : dict :=
  [("id", JStr "x"); ("title", JStr "T"); ("author", JStr "A"); ("schemaVersion", JStr "1.0");
   ("chapterCount", JInt 1); ("characterCount", JInt 0)].

Definition minimal_files (book : json) (snapshot : json) : list (string * node) :=
  [("/books/x", Directory ["book.json"; "chapters"]);
   ("/books/x/book.json", file book);
   ("/books/x/chapters", Directory ["index.json"; "s1.json"; "d1.json"]);
   ("/books/x/chapters/index.json", file (JArr [entry 1 "s1.json" "d1.json"]));
   ("/books/x/chapters/s1.json", file snapshot);
   ("/books/x/chapters/d1.json", file (JObj []))].

Definition one_node : json := JObj [("nodes", JArr [JObj [("id", JStr "n1")]])].

Definition minimal : filesystem := fs_of (minimal_files (JObj minimal_book) one_node).

(** The minimal package with a registry file that is no JSON. *)
Definition corrupt_registry : filesystem :=
  fs_of (minimal_files (JObj minimal_book) one_node
         ++ [("/books/x/characters/index.json",
              RegularFile (Undecodable "Expecting value: line 1 column 1 (char 0)"))]).

(** The minimal package with a registry that is a list. *)
Definition list_registry : filesystem :=
  fs_of (minimal_files (JObj minimal_book) one_node
         ++ [("/books/x/characters/index.json", file (JArr [JStr "alyosha"]))]).

(** An empty chapter index beside a book.json that promises five
    characters and a registry of one. *)
Definition no_chapters : filesystem :=
  fs_of
    [("/books/x", Directory ["book.json"; "chapters"; "characters"]);
     ("/books/x/book.json",
      file (JObj [("id", JStr "x"); ("title", JStr "T"); ("author", JStr "A");
                  ("schemaVersion", JStr "1.0"); ("chapterCount", JInt 0);
                  ("characterCount", JInt 5)]));
     ("/books/x/chapters/index.json", file (JArr []));
     ("/books/x/characters/index.json", file (JObj [("a", JObj [])]))].

(** The minimal package with another chapter index. *)
Definition with_index (index : json) : filesystem :=
  fs_of (("/books/x/chapters/index.json", file index)
         :: minimal_files (JObj minimal_book) one_node).

(** The minimal package with another first snapshot. *)
Definition with_snapshot (snapshot : json) : filesystem :=
  fs_of (minimal_files (JObj minimal_book) snapshot).

(** The minimal package whose book.json leaves chapterCount out. *)
Definition uncounted_book : dict :=
  [("id", JStr "x"); ("title", JStr "T"); ("author", JStr "A"); ("schemaVersion", JStr "1.0")].

Definition uncounted : filesystem := fs_of (minimal_files (JObj uncounted_book) one_node).

(** Eleven chapters, each with a snapshot of no nodes and a delta file
    that is not there. *)
Definition eleven : list nat := seq 1 11.

Definition hollow_chapters : filesystem :=
  fs_of
    ([("/books/x", Directory ["book.json"; "chapters"]);
      ("/books/x/book.json",
       file (JObj [("id", JStr "x"); ("title", JStr "T"); ("author", JStr "A");
                   ("schemaVersion", JStr "1.0"); ("chapterCount", JInt 11)]));
      ("/books/x/chapters/index.json",
       file (JArr (map (fun n => entry (Z.of_nat n) ("s" ++ str_of_nat n ++ ".json")
                                   ("d" ++ str_of_nat n ++ ".json")) eleven)))]
     ++ map (fun n => ("/books/x/chapters/s" ++ str_of_nat n ++ ".json",
                       file (JObj [("nodes", JArr [])]))) eleven).

(** A books directory with three packages; the book.json of the second
    is as given. *)
Definition shelf (second : list (string * node)) : filesystem :=
  fs_of
    ([("/books", Directory ["c"; "a"; "b"; "README.md"]);
      ("/books/README.md", RegularFile (Undecodable "Expecting value: line 1 column 1 (char 0)"));
      ("/books/a", Directory ["book.json"]);
      ("/books/a/book.json",
       file (JObj [("id", JStr "a"); ("title", JStr "Anna Karenina"); ("author", JStr "Tolstoy")]));
      ("/books/b", Directory ["book.json"]);
      ("/books/c", Directory ["book.json"]);
      ("/books/c/book.json",
       file (JObj [("id", JStr "c"); ("title", JStr "Crime and Punishment");
                   ("author", JStr "Dostoevsky"); ("chapterCount", JInt 41)]))]
     ++ second).

Definition catalog_entry (id title author : string) (chapters : Z) : json :=
  JObj [("id", JStr id); ("title", JStr title); ("author", JStr author);
        ("coverImage", JNull); ("chapterCount", JInt chapters); ("characterCount", JInt 0)].

(** ** Runs on the packages *)

Definition registry_warning : string := "characters/index.json is missing or invalid".

(** The minimal package passes with the one warning of the missing
    registry, and fails on it when strict. *)
Lemma minimal_run :
  validate_run no_float minimal "/books/x" false = Ok (true, [], [registry_warning])
  /\ validate_run no_float minimal "/books/x" true
     = Ok (false, [registry_warning], [registry_warning]).
Proof. split; vm_compute; reflexivity. Qed.



(** A strict run with a warning, and a run that is not strict with
    none but warnings. *)
Lemma strict_mode_witness :
  (incl [registry_warning] [registry_warning] /\ false = false) /\ true = true.
Proof.
  split.
  - apply (proj1 (proj2 (strict_mode_verdict no_float)) minimal "/books/x"
             false [registry_warning] [registry_warning]).
    + vm_compute. reflexivity.
    + discriminate.
  - apply (proj2 (proj2 (strict_mode_verdict no_float)) minimal "/books/x"
             true [] [registry_warning]).
    + vm_compute. reflexivity.
    + reflexivity.
Defined.





(** A run and the run after it on the minimal package. *)
Lemma validate_twice_witness :
  disk (mkWorld minimal "/books/x" true [registry_warning] [registry_warning]) = minimal
  /\ validate_twice no_float minimal "/books/x" true
     = Ok ((false, [registry_warning], [registry_warning]),
           (false, [registry_warning], [registry_warning])).
Proof.
  apply (validate_twice_same_lists no_float minimal "/books/x" true false
           (mkWorld minimal "/books/x" true [registry_warning] [registry_warning])).
  vm_compute. reflexivity.
Defined.


(** ** Where the code goes wrong *)

(** C4. A chapter index whose entry is a number stops the run with a
    TypeError at [field not in entry]; one whose entry is a str gets
    past that test and stops the run with an AttributeError at
    [entry.get].  A directory that is not there gives a result. *)
Theorem entries_that_are_no_objects_crash :
  validate_run no_float (with_index (JArr [JInt 1])) "/books/x" false = Raise TypeError
  /\ validate_run no_float (with_index (JArr [JStr "chapter, snapshot, delta"])) "/books/x" false
     = Raise AttributeError
  /\ validate_run no_float minimal "/books/nowhere" false
     = Ok (false, ["Directory does not exist: /books/nowhere"], []).
Proof.
  split; [ | split ].
  - vm_compute. reflexivity.
  - vm_compute. reflexivity.
  - vm_compute. reflexivity.
Qed.

(** ** The catalog *)

(** X6. What [load_book_meta] makes of a package directory: no entry
    when there is no book.json or when it is a dict without one of
    [id], [title], [author]; the flattened record, with the defaults for
    what is left out, when it is a dict with the three; and the decode
    error when the file is no JSON. *)
Theorem load_book_meta_cases (fs : filesystem) (dir : string) :
  match fs (path_join dir "book.json") with
  | Some (RegularFile (Decoded (JObj d))) =>
      if forallb (fun k => dict_mem k d) ["id"; "title"; "author"] then
        load_book_meta fs dir
        = Ok (Some [("id", dict_get_or d "id" JNull);
                    ("title", dict_get_or d "title" JNull);
                    ("author", dict_get_or d "author" JNull);
                    ("coverImage", dict_get_or d "coverImage" JNull);
                    ("chapterCount", dict_get_or d "chapterCount" (JInt 0));
                    ("characterCount", dict_get_or d "characterCount" (JInt 0))])
      else load_book_meta fs dir = Ok None
  | Some (RegularFile (Decoded _)) => True
  | Some (RegularFile (Undecodable e)) => load_book_meta fs dir = Raise (DecodeError e)
  | _ => load_book_meta fs dir = Ok None
  end.
Proof.
  unfold load_book_meta, fs_isfile, fs_load.
  destruct (fs (path_join dir "book.json")) as [[names | [v | e]] | ]; try reflexivity.
  destruct v; try exact I.
  unfold rbind. rewrite missing_fields_dict.
  cbn [forallb filter py_getitem py_get].
  unfold dict_mem, dict_get_or.
  destruct (dict_get "id" d), (dict_get "title" d), (dict_get "author" d); reflexivity.
Qed.

(** C5. A book.json that is no JSON stops the scan with the decode
    error; the same directory without a book.json is left out and the
    scan goes on. *)
Theorem undecodable_book_json_aborts_catalog :
  build_catalog
    (shelf [("/books/b/book.json", RegularFile (Undecodable "Expecting value: line 1 column 1 (char 0)"))])
    "/books"
  = Raise (DecodeError "Expecting value: line 1 column 1 (char 0)")
  /\ build_catalog (shelf []) "/books"
     = Ok (JObj [("books", JArr [catalog_entry "a" "Anna Karenina" "Tolstoy" 0;
                                 catalog_entry "c" "Crime and Punishment" "Dostoevsky" 41])]).
Proof. split; vm_compute; reflexivity. Qed.

(** C6. The snapshot [{}] draws no warning, the snapshot with an empty
    node list and the one with other fields and no node list do. *)
Theorem empty_object_snapshot_not_collected :
  validate_run no_float (with_snapshot (JObj [])) "/books/x" false
  = Ok (true, [], [registry_warning])
  /\ validate_run no_float (with_snapshot (JObj [("nodes", JArr [])])) "/books/x" false
     = Ok (true, [], [registry_warning; "1 snapshot(s) have 0 nodes: chapters [1]"])
  /\ validate_run no_float (with_snapshot (JObj [("edges", JArr [])])) "/books/x" false
     = Ok (true, [], [registry_warning; "1 snapshot(s) have 0 nodes: chapters [1]"]).
Proof. repeat split; vm_compute; reflexivity. Qed.

(** C7. Eleven empty snapshots: the warning counts eleven and lists ten
    chapters with no mark that one is left out, where the error for the
    eleven missing delta files of the same run lists five and ends in
    an ellipsis. *)
Theorem empty_snapshot_warning_has_no_ellipsis :
  validate_run no_float hollow_chapters "/books/x" false
  = Ok (false,
        ["11 delta file(s) missing: "
         ++ "ch1:d1.json, ch2:d2.json, ch3:d3.json, ch4:d4.json, ch5:d5.json..."],
        [registry_warning;
         "11 snapshot(s) have 0 nodes: chapters [1, 2, 3, 4, 5, 6, 7, 8, 9, 10]"]).
Proof. vm_compute. reflexivity. Qed.


Lemma missing_directory_witness :
  validate_run no_float minimal "/books/nowhere" true
  = Ok (false, ["Directory does not exist: " ++ "/books/nowhere"], []).
Proof.
  apply (missing_directory_fails no_float minimal "/books/nowhere" true).
  reflexivity.
Defined.

Lemma validate_again_witness :
  validate no_float (mkWorld minimal "/books/x" false [] [registry_warning])
  = Ok (true, mkWorld minimal "/books/x" false []
                [registry_warning; registry_warning]).
Proof.
  apply (validate_again_appends no_float minimal "/books/x" false true
           (mkWorld minimal "/books/x" false [] [registry_warning])).
  vm_compute. reflexivity.
Defined.


(** ** The scan of the catalog *)

(** The entry the scan makes of one name of the books directory: none
    for what is no directory and for a directory [load_book_meta] has
    no entry for. *)
Definition catalog_books (fs : filesystem) (books_dir : string) (names : list string)
  : list json :=
  flat_map (fun name =>
              let book_path := path_join books_dir name in
              if fs_isdir fs book_path then
                match load_book_meta fs book_path with
                | Ok (Some d) => [JObj d]
                | _ => []
                end
              else []) names.

(** [load_book_meta] does not raise on the directory of that name. *)
Definition loads (fs : filesystem) (books_dir name : string) : bool :=
  negb (fs_isdir fs (path_join books_dir name))
  || match load_book_meta fs (path_join books_dir name) with
     | Ok _ => true
     | Raise _ => false
     end.

Definition catalog_keys : list string :=
  ["id"; "title"; "author"; "coverImage"; "chapterCount"; "characterCount"].

Lemma load_book_meta_keys (fs : filesystem) (dir : string) (d : dict) :
  load_book_meta fs dir = Ok (Some d) -> map fst d = catalog_keys.
Proof.
  unfold load_book_meta, rbind.
  repeat match goal with
         | |- context [match ?x with _ => _ end] => destruct x
         end;
    intros H; inversion H; reflexivity.
Qed.

Lemma scan_books_all (fs : filesystem) (books_dir : string) (names : list string)
    (books : list json) :
  forallb (loads fs books_dir) names = true ->
  scan_books fs books_dir names books
  = Ok (books ++ catalog_books fs books_dir names)%list.
Proof.
  revert books. induction names as [| name names IH]; intros books Hloads.
  - simpl. now rewrite app_nil_r.
  - cbn [forallb] in Hloads. apply andb_true_iff in Hloads. destruct Hloads as [Hname Hloads].
    cbn [scan_books catalog_books flat_map]. cbv zeta. unfold loads in Hname.
    destruct (fs_isdir fs (path_join books_dir name)); cbn [negb orb] in *.
    + destruct (load_book_meta fs (path_join books_dir name)) as [[d | ] | e] eqn:Hmeta;
        try discriminate; cbn [rbind].
      * pose proof (load_book_meta_keys _ _ _ Hmeta) as Hkeys.
        destruct d as [| kv d]; [ discriminate | ].
        cbn [available the nonempty]. rewrite (IH _ Hloads).
        unfold catalog_books. now rewrite <- app_assoc.
      * cbn [available the nonempty]. apply (IH _ Hloads).
    + apply (IH _ Hloads).
Qed.

Lemma insert_sorted_perm (x : string) (l : list string) :
  Permutation (x :: l) (insert_sorted x l).
Proof.
  induction l as [| y l IH]; simpl; [ apply Permutation_refl | ].
  destruct (String.leb x y); [ apply Permutation_refl | ].
  eapply perm_trans; [ apply perm_swap | now apply perm_skip ].
Qed.

Lemma sorted_perm (l : list string) : Permutation l (sorted l).
Proof.
  induction l as [| x l IH]; simpl; [ apply perm_nil | ].
  eapply perm_trans; [ apply perm_skip, IH | apply insert_sorted_perm ].
Qed.

Definition ascending (a b : string) : Prop := String.leb a b = true.

Lemma insert_sorted_ascending (x : string) (l : list string) :
  Sorted ascending l -> Sorted ascending (insert_sorted x l).
Proof.
  induction l as [| y l IH]; intros Hs; simpl.
  - repeat constructor.
  - destruct (String.leb x y) eqn:Hxy.
    + constructor; [ exact Hs | constructor; exact Hxy ].
    + inversion Hs as [| ? ? Hl Hhd]; subst.
      constructor; [ now apply IH | ].
      destruct l as [| z l]; simpl.
      * constructor. destruct (String.leb_total x y) as [H | H]; [ congruence | exact H ].
      * destruct (String.leb x z).
        -- constructor. destruct (String.leb_total x y) as [H | H]; [ congruence | exact H ].
        -- inversion Hhd; subst. now constructor.
Qed.

Lemma sorted_ascending (l : list string) : Sorted ascending (sorted l).
Proof.
  induction l as [| x l IH]; simpl; [ constructor | now apply insert_sorted_ascending ].
Qed.

(** X15. The scan: without a books directory it exits with status 1;
    with one, and when [load_book_meta] raises on none of its
    directories, the catalog holds, for the names of the directory in
    ascending order, the entry of each name that is a directory with a
    book.json that has [id], [title] and [author], and nothing for the
    other names; every entry has the six keys of the catalog, in their
    order. *)
Theorem catalog_scanned (fs : filesystem) (books_dir : string) :
  (fs_isdir fs books_dir = false -> build_catalog fs books_dir = Raise (SystemExit 1))
  /\ (forall names,
         fs books_dir = Some (Directory names) ->
         forallb (loads fs books_dir) names = true ->
         build_catalog fs books_dir
         = Ok (JObj [("books", JArr (catalog_books fs books_dir (sorted names)))])
         /\ Sorted ascending (sorted names)
         /\ Permutation names (sorted names)
         /\ forall b, In b (catalog_books fs books_dir (sorted names)) ->
                      exists d, b = JObj d /\ map fst d = catalog_keys).
Proof.
  split.
  - intros Hdir. unfold build_catalog. now rewrite Hdir.
  - intros names Hlist Hloads.
    assert (Hsorted : forallb (loads fs books_dir) (sorted names) = true).
    { rewrite forallb_forall in *. intros x Hx. apply Hloads.
      apply (Permutation_in x (Permutation_sym (sorted_perm names)) Hx). }
    split; [ | split; [ apply sorted_ascending | split; [ apply sorted_perm | ] ] ].
    + unfold build_catalog, fs_isdir, fs_listdir. rewrite Hlist. cbn [negb rbind].
      rewrite (scan_books_all _ _ _ [] Hsorted). reflexivity.
    + intros b Hb. unfold catalog_books in Hb. apply in_flat_map in Hb.
      destruct Hb as (name & _ & Hb). cbv zeta in Hb.
      destruct (fs_isdir fs (path_join books_dir name)); [ | contradiction ].
      destruct (load_book_meta fs (path_join books_dir name)) as [[d | ] | e] eqn:Hmeta;
        try contradiction.
      destruct Hb as [<- | []]. exists d. split; [ reflexivity | ].
      now apply load_book_meta_keys in Hmeta.
Qed.

(** ** The further properties on the packages *)

(** The minimal package with a registry that knows its one node, and a
    book.json that counts the one character. *)
Definition complete_book : dict :=
  [("id", JStr "x"); ("title", JStr "T"); ("author", JStr "A"); ("schemaVersion", JStr "1.0");
   ("chapterCount", JInt 1); ("characterCount", JInt 1)].

Definition complete : filesystem :=
  fs_of (minimal_files (JObj complete_book) one_node
         ++ [("/books/x/characters/index.json", file (JObj [("n1", JObj [("name", JStr "N")])]))]).

(** The minimal package with an index of two chapters on the one
    snapshot. *)
Definition two_chapters : filesystem :=
  with_index (JArr [entry 1 "s1.json" "d1.json"; entry 2 "s1.json" "d1.json"]).

(** The minimal package with an index whose first entry has only its
    chapter. *)
Definition bare_entry : filesystem :=
  with_index (JArr [JObj [("chapter", JInt 1)]; entry 2 "s1.json" "d1.json"]).

Lemma valid_package_witness :
  validate_run no_float complete "/books/x" true = Ok (true, [], []).
Proof.
  apply (valid_package_passes no_float complete "/books/x" true).
  vm_compute. reflexivity.
Defined.



(** The eleven deltas of the hollow chapters, none of them a file. *)
Lemma chapter_files_witness :
  _check_chapter_files no_float
    (map (fun n => entry (Z.of_nat n) ("s" ++ str_of_nat n ++ ".json")
                     ("d" ++ str_of_nat n ++ ".json")) eleven)
    (new_validator hollow_chapters "/books/x" false)
  = Ok (tt,
        add_error
          ("11 delta file(s) missing: ch1:d1.json, ch2:d2.json, ch3:d3.json, ch4:d4.json, "
           ++ "ch5:d5.json...")
          (new_validator hollow_chapters "/books/x" false)).
Proof.
  exact (chapter_files_reported no_float
           (map (fun n => entry (Z.of_nat n) ("s" ++ str_of_nat n ++ ".json")
                            ("d" ++ str_of_nat n ++ ".json")) eleven)
           (new_validator hollow_chapters "/books/x" false) eq_refl).
Defined.

Lemma coverage_reported_witness :
  _check_node_character_coverage no_float [entry 1 "ch1.json" "d1.json"]
    [("alyosha", JObj [("name", JStr "Alexei Fyodorovich Karamazov")])]
    (new_validator karamazov "/books/karamazov" false)
  = Ok (tt, add_warning "1 node ID(s) not in characters/index.json: zosima"
              (new_validator karamazov "/books/karamazov" false)).
Proof.
  exact (coverage_reported no_float []
           [("chapter", JInt 1); ("snapshot", JStr "ch1.json"); ("delta", JStr "d1.json")]
           [("alyosha", JObj [("name", JStr "Alexei Fyodorovich Karamazov")])]
           (new_validator karamazov "/books/karamazov" false)
           "ch1.json"
           [("nodes", JArr [JObj [("id", JStr "alyosha")];
                            JObj [("label", JStr "a monastery")];
                            JObj [("id", JStr "zosima")]])]
           [[("id", JStr "alyosha")]; [("label", JStr "a monastery")]; [("id", JStr "zosima")]]
           eq_refl ltac:(discriminate) eq_refl ltac:(discriminate) eq_refl eq_refl).
Defined.

Lemma index_fields_witness :
  _check_chapters_index (new_validator bare_entry "/books/x" false)
  = Ok (Some [JObj [("chapter", JInt 1)]; entry 2 "s1.json" "d1.json"],
        mkWorld bare_entry "/books/x" false
          ["chapters/index.json[0] missing 'snapshot'"; "chapters/index.json[0] missing 'delta'"]
          []).
Proof.
  exact (index_fields_reported
           [[("chapter", JInt 1)];
            [("chapter", JInt 2); ("snapshot", JStr "s1.json"); ("delta", JStr "d1.json")]]
           (new_validator bare_entry "/books/x" false)
           eq_refl ltac:(discriminate)).
Defined.

(** The registry that is a list: no registry, and a warning. *)
Lemma unavailable_data_witness :
  exists m ms,
    warnings (mkWorld list_registry "/books/x" false [] ["characters/index.json is not a dict"])
    = ([] ++ m :: ms)%list.
Proof.
  exact (proj2 (proj2 (unavailable_data_is_reported no_float
                         (new_validator list_registry "/books/x" false)
                         (mkWorld list_registry "/books/x" false []
                            ["characters/index.json is not a dict"])))
           eq_refl).
Defined.

Lemma returned_data_witness :
  minimal (path_join "/books/x" "book.json") = Some (RegularFile (Decoded (JObj minimal_book)))
  /\ forallb (fun k => dict_mem k minimal_book) required_fields = true.
Proof.
  exact (proj1 (returned_data_is_on_disk no_float
                  (new_validator minimal "/books/x" false)
                  (new_validator minimal "/books/x" false))
           minimal_book eq_refl).
Defined.

(** The shelf of three books, scanned in the order of their names. *)
Lemma catalog_scanned_witness :
  build_catalog
    (shelf [("/books/b/book.json",
             file (JObj [("id", JStr "b"); ("title", JStr "Boyhood"); ("author", JStr "Tolstoy")]))])
    "/books"
  = Ok (JObj [("books", JArr [catalog_entry "a" "Anna Karenina" "Tolstoy" 0;
                              catalog_entry "b" "Boyhood" "Tolstoy" 0;
                              catalog_entry "c" "Crime and Punishment" "Dostoevsky" 41])]).
Proof.
  exact (proj1 (proj2 (catalog_scanned
                         (shelf [("/books/b/book.json",
                                  file (JObj [("id", JStr "b"); ("title", JStr "Boyhood");
                                              ("author", JStr "Tolstoy")]))])
                         "/books")
                  ["c"; "a"; "b"; "README.md"] eq_refl eq_refl)).
Defined.

(** Five characters promised, one in the registry. *)
Lemma character_count_witness :
  exists w',
    validate no_float (new_validator no_chapters "/books/x" true) = Ok (false, w')
    /\ In (character_count_mismatch "5" 1) (warnings w')
    /\ In (character_count_mismatch "5" 1) (errors w').
Proof.
  destruct (validate no_float (new_validator no_chapters "/books/x" true))
    as [[passed w'] | e] eqn:Hrun.
  - destruct (character_count_mismatch_warns no_float
                (new_validator no_chapters "/books/x" true)
                [("id", JStr "x"); ("title", JStr "T"); ("author", JStr "A");
                 ("schemaVersion", JStr "1.0"); ("chapterCount", JInt 0);
                 ("characterCount", JInt 5)]
                [("a", JObj [])]
                eq_refl eq_refl eq_refl eq_refl ltac:(discriminate) eq_refl
                passed w' Hrun) as (Hw & Hs).
    destruct (Hs eq_refl) as (-> & He).
    exists w'. repeat split; assumption.
  - exfalso. vm_compute in Hrun. discriminate.
Defined.

Lemma loader_reads_witness :
  load_json "chapters/s1.json" (new_validator minimal "/books/x" false)
  = Ok (one_node, new_validator minimal "/books/x" false).
Proof.
  exact (proj1 (loader_reads_checked_file (new_validator minimal "/books/x" false) "s1.json")
           eq_refl).
Defined.
